(** * counterai: the image-detection wrapper (model_handler.py, detect.py)

    A shallow embedding of [ImageDetectionModel] and of the driver
    [detect_image] / [main], with the properties stated in the design
    document proved (or refuted) on the embedding.

    The neural network, the tensor runtime, the image decoder and the
    file system are external to the repository; they enter the model as
    the operations of an interface ([Env]) over which every definition
    and theorem is parametric. *)

From Stdlib Require Import List String Ascii ZArith QArith Qround Bool Lia Lqa.
From Stdlib Require Import DecimalString.
Import ListNotations.
Local Open Scope string_scope.
Local Open Scope Z_scope.

(** ** Floating-point values as seen by comparisons

    Scores, thresholds and box coordinates are IEEE floats.  The only
    float operation the repository performs itself is the comparison
    [score >= confidence_threshold] (and [0.0 <= c <= 1.0] in [main]).
    An IEEE comparison of two floats of one precision depends only on
    the values denoted: it is false as soon as one side is a NaN, and is
    the comparison of extended reals otherwise.  A float is therefore
    modelled by the value it denotes.  Where the two sides differ in
    precision (a single-precision score against a Python float) the
    conversion NumPy applies first is an operation of [Env] below. *)

Inductive pyfloat : Type :=
| NaN
| NegInf
| Fin (q : Q)
| PosInf.

(** [a >= b] on floats. *)
Definition float_ge (a b : pyfloat) : bool :=
  match a, b with
  | NaN, _ | _, NaN => false
  | PosInf, _ => true
  | _, NegInf => true
  | Fin x, Fin y => Qle_bool y x
  | NegInf, _ => false
  | Fin _, PosInf => false
  end.

(** [a <= b] on floats. *)
Definition float_le (a b : pyfloat) : bool := float_ge b a.

(** [a > b] on floats. *)
Definition float_gt (a b : pyfloat) : bool :=
  match a, b with
  | NaN, _ | _, NaN => false
  | NegInf, _ => false
  | _, PosInf => false
  | Fin x, Fin y => negb (Qle_bool x y)
  | PosInf, _ => true
  | Fin _, NegInf => true
  end.

Definition f0 : pyfloat := Fin 0.
Definition f1 : pyfloat := Fin 1.
Definition f05 : pyfloat := Fin (1 # 2).

(** ** Exceptions and results *)

(** The exceptions that can leave the code: the ones it raises itself
    ([ValueError], [SystemExit] through [sys.exit]), the ones the
    interpreter raises on its behalf ([IndexError], [TypeError],
    [AttributeError]), and
    whatever an external library raises. *)
Inductive exn : Type :=
| ValueError (msg : string)
| IndexError (msg : string)
| TypeError (msg : string)
| AttributeError (msg : string)
| SystemExit (code : Z)
| LibraryError (cls msg : string).

Inductive result (A : Type) : Type :=
| Ok (a : A)
| Err (e : exn).
Arguments Ok {A} a.
Arguments Err {A} e.

(** [SystemExit] derives from [BaseException], not from [Exception]: an
    [except Exception] clause lets it through. *)
Definition is_Exception (e : exn) : bool :=
  match e with
  | SystemExit _ => false
  | _ => true
  end.

(** ** Python sequences *)

(** [l[i]] on a Python list: a negative index counts from the end, and
    an index outside [-len l, len l) raises [IndexError]. *)
Definition list_getitem {A : Type} (l : list A) (i : Z) : result A :=
  let n := Z.of_nat (List.length l) in
  let j := if i <? 0 then i + n else i in
  if (j <? 0) || (n <=? j) then Err (IndexError "list index out of range")
  else match nth_error l (Z.to_nat j) with
       | Some a => Ok a
       | None => Err (IndexError "list index out of range")
       end.

(** [zip(a, b, c)]: stops with the shortest argument. *)
Fixpoint zip3 {A B C : Type} (a : list A) (b : list B) (c : list C)
  : list (A * B * C) :=
  match a, b, c with
  | x :: a', y :: b', z :: c' => (x, y, z) :: zip3 a' b' c'
  | _, _, _ => []
  end.

(** Decimal rendering of a length, as an f-string prints it. *)
Definition str_of_nat (n : nat) : string :=
  NilEmpty.string_of_uint (Nat.to_uint n).

(** ** Data produced by the detector *)

(** What the network returns for one image: the dictionary with keys
    ['boxes'], ['scores'] and ['labels'], after [.cpu().numpy()]. *)
Record prediction : Type := {
  pred_boxes : list (list pyfloat);
  pred_scores : list pyfloat;
  pred_labels : list Z
}.

(** One entry of the list [detect] returns. *)
Record detection : Type := {
  bbox : list pyfloat;
  score : pyfloat;
  label : string;
  label_id : Z
}.

(** The dictionary [detect_image] returns and optionally dumps. *)
Record results : Type := {
  image_path : string;
  num_detections : nat;
  detections : list detection
}.

(** ** Observable actions *)

Inductive event : Type :=
| Stdout (line : string)
| Stderr (line : string)
| CocoClassNamesBuilt
| JsonDumped (path : string) (r : results).

(** ** The state-and-exception monad

    A Python method runs against a mutable store and either returns or
    raises; what it wrote before raising stays written. *)

Definition M (S A : Type) : Type := S -> result A * S.

Definition ret {S A : Type} (a : A) : M S A := fun s => (Ok a, s).

Definition bind {S A B : Type} (c : M S A) (k : A -> M S B) : M S B :=
  fun s =>
    match c s with
    | (Ok a, s') => k a s'
    | (Err e, s') => (Err e, s')
    end.

Definition raise {S A : Type} (e : exn) : M S A := fun s => (Err e, s).

(** Result of a call into an external library. *)
Definition lift {S A : Type} (r : result A) : M S A := fun s => (r, s).

Definition get {S : Type} : M S S := fun s => (Ok s, s).

Definition modify {S : Type} (f : S -> S) : M S unit := fun s => (Ok tt, f s).

Declare Scope py_scope.
Delimit Scope py_scope with py.
Notation "x <- c1 ;; c2" := (bind c1 (fun x => c2))
  (at level 61, c1 at next level, right associativity) : py_scope.
Notation "c1 ;; c2" := (bind c1 (fun _ => c2))
  (at level 61, right associativity) : py_scope.
Local Open Scope py_scope.

(** ** External collaborators

    torch, torchvision, PIL, numpy and the file system.  A library call
    that can raise returns a [result].  [Module_call] is the forward
    pass together with the [.cpu().numpy()] conversions of its three
    output tensors; [Module_get_class_names m] is [None] when
    [hasattr(m, 'get_class_names')] is false.

    [threshold_cast] is what NumPy makes of the Python float on the
    right of [score >= confidence_threshold] before it compares it with
    the [np.float32] score on the left: the float itself up to NumPy 1
    (the comparison is carried out in double precision), the float
    rounded to single precision since NumPy 2.  Either way the
    conversion keeps the order of floats and keeps a NaN a NaN, which is
    all the development relies on. *)
Class Env : Type := {
  PIL_Image : Type;
  ndarray : Type;
  Tensor : Type;
  Module : Type;
  Transform : Type;
  cuda_is_available : bool;
  fasterrcnn_resnet50_fpn : result Module;
  weights_transforms : Transform;
  Module_to : Module -> string -> result Module;
  Module_eval : Module -> Module;
  Module_get_class_names : Module -> option (list string);
  Module_call : Module -> Tensor -> result (list prediction);
  Image_open : string -> result PIL_Image;
  Image_open_BytesIO : list Byte.byte -> result PIL_Image;
  Image_fromarray : ndarray -> result PIL_Image;
  Image_convert_RGB : PIL_Image -> result PIL_Image;
  Transform_call : Transform -> PIL_Image -> result Tensor;
  ToTensor : PIL_Image -> result Tensor;
  Tensor_unsqueeze : Tensor -> Z -> Tensor;
  Tensor_to : Tensor -> string -> result Tensor;
  Path_exists : string -> bool;
  format_2f : pyfloat -> string;
  repr_floats : list pyfloat -> string;
  json_dump : string -> results -> result unit;
  threshold_cast : pyfloat -> pyfloat;
  threshold_cast_mono :
    forall a b, float_ge a b = true ->
                float_ge (threshold_cast a) (threshold_cast b) = true;
  threshold_cast_NaN : threshold_cast NaN = NaN
}.

Section Detector.

Context {E : Env}.

(** A Python value as [preprocess_image] can receive it: the four
    classes it tests for, and everything else. *)
Inductive pyvalue : Type :=
| PyStr (s : string)
| PyBytes (b : list Byte.byte)
| PyArray (a : ndarray)
| PyImage (i : PIL_Image)
| PyNone
| PyBool (b : bool)
| PyInt (z : Z)
| PyFloat (x : pyfloat)
| PyByteArray (b : list Byte.byte)
| PyObject (cls : string).

(** [str(type(v))]. *)
Definition type_repr (v : pyvalue) : string :=
  let cls :=
    match v with
    | PyStr _ => "str"
    | PyBytes _ => "bytes"
    | PyArray _ => "numpy.ndarray"
    | PyImage _ => "PIL.Image.Image"
    | PyNone => "NoneType"
    | PyBool _ => "bool"
    | PyInt _ => "int"
    | PyFloat _ => "float"
    | PyByteArray _ => "bytearray"
    | PyObject c => c
    end in
  "<class '" ++ cls ++ "'>".

(** The attributes of an [ImageDetectionModel] instance. *)
Record ImageDetectionModel : Type := {
  device : string;
  model_name : string;
  model : option Module;
  transform : option Transform
}.

(** What a method runs against: its instance and the output so far. *)
Record world : Type := {
  self : ImageDetectionModel;
  out : list event
}.

Definition emit (ev : event) : M world unit :=
  modify (fun w => {| self := self w; out := out w ++ [ev] |}).

Definition set_model (m : option Module) : M world unit :=
  modify (fun w =>
    {| self := {| device := device (self w); model_name := model_name (self w);
                  model := m; transform := transform (self w) |};
       out := out w |}).

Definition set_transform (t : option Transform) : M world unit :=
  modify (fun w =>
    {| self := {| device := device (self w); model_name := model_name (self w);
                  model := model (self w); transform := t |};
       out := out w |}).

Definition get_self : M world ImageDetectionModel :=
  w <- get ;; ret (self w).

(** [ImageDetectionModel._load_model].  [nn.Module.to] and [.eval()]
    work in place on the module [self.model] refers to. *)
Definition _load_model : M world unit :=
  s <- get_self ;;
  (if String.eqb (model_name s) "fasterrcnn_resnet50_fpn" then
     m <- lift fasterrcnn_resnet50_fpn ;;
     set_model (Some m) ;;
     set_transform (Some weights_transforms)
   else
     raise (ValueError ("Unsupported model: " ++ model_name s))) ;;
  s <- get_self ;;
  match model s with
  | None => raise (AttributeError "'NoneType' object has no attribute 'to'")
  | Some m =>
      m' <- lift (Module_to m (device s)) ;;
      set_model (Some m') ;;
      set_model (Some (Module_eval m')) ;;
      emit (Stdout ("Model loaded on device: " ++ device s))
  end.

(** [ImageDetectionModel.__init__]: the four attribute assignments,
    then [_load_model].  An empty [device] string is falsy, like
    [None]. *)
Definition __init__ (name : string) (dev : option string) : M world unit :=
  let auto := if cuda_is_available then "cuda" else "cpu" in
  let d := match dev with
           | Some "" | None => auto
           | Some d => d
           end in
  modify (fun w =>
    {| self := {| device := d; model_name := name;
                  model := None; transform := None |};
       out := out w |}) ;;
  _load_model.

(** The instance [object.__new__] hands to [__init__]: it has no
    attribute yet, and [__init__] assigns all four before reading any. *)
Definition fresh_instance : ImageDetectionModel :=
  {| device := ""; model_name := ""; model := None; transform := None |}.

(** The call [ImageDetectionModel(name, dev)]: the caller receives the
    instance only if [__init__] returns; if it raises, the exception
    propagates and the instance is unreachable. *)
Definition new (name : string) (dev : option string)
  : M (list event) ImageDetectionModel :=
  fun log =>
    let '(r, w) := __init__ name dev {| self := fresh_instance; out := log |} in
    (match r with Ok _ => Ok (self w) | Err e => Err e end, out w).

(** [ImageDetectionModel.preprocess_image]. *)
Definition preprocess_image (image : pyvalue) : M world Tensor :=
  img <- match image with
         | PyStr path =>
             i <- lift (Image_open path) ;; lift (Image_convert_RGB i)
         | PyBytes b =>
             i <- lift (Image_open_BytesIO b) ;; lift (Image_convert_RGB i)
         | PyArray a =>
             i <- lift (Image_fromarray a) ;; lift (Image_convert_RGB i)
         | PyImage i =>
             lift (Image_convert_RGB i)
         | _ =>
             raise (ValueError ("Unsupported image type: " ++ type_repr image))
         end ;;
  s <- get_self ;;
  match transform s with
  | Some t => lift (Transform_call t img)
  | None => lift (ToTensor img)
  end.

(** [ImageDetectionModel._get_coco_class_names]: every call builds the
    list anew. *)
Definition coco_class_names : list string :=
  [ "__background__"; "person"; "bicycle"; "car"; "motorcycle"; "airplane"; "bus";
    "train"; "truck"; "boat"; "traffic light"; "fire hydrant"; "N/A"; "stop sign";
    "parking meter"; "bench"; "bird"; "cat"; "dog"; "horse"; "sheep"; "cow";
    "elephant"; "bear"; "zebra"; "giraffe"; "N/A"; "backpack"; "umbrella"; "N/A"; "N/A";
    "handbag"; "tie"; "suitcase"; "frisbee"; "skis"; "snowboard"; "sports ball";
    "kite"; "baseball bat"; "baseball glove"; "skateboard"; "surfboard"; "tennis racket";
    "bottle"; "N/A"; "wine glass"; "cup"; "fork"; "knife"; "spoon"; "bowl";
    "banana"; "apple"; "sandwich"; "orange"; "broccoli"; "carrot"; "hot dog"; "pizza";
    "donut"; "cake"; "chair"; "couch"; "potted plant"; "bed"; "N/A"; "dining table";
    "N/A"; "N/A"; "toilet"; "N/A"; "tv"; "laptop"; "mouse"; "remote"; "keyboard";
    "cell phone"; "microwave"; "oven"; "toaster"; "sink"; "refrigerator"; "N/A"; "book";
    "clock"; "vase"; "scissors"; "teddy bear"; "hair drier"; "toothbrush" ].

Definition _get_coco_class_names : M world (list string) :=
  emit CocoClassNamesBuilt ;; ret coco_class_names.

(** The first block of [detect]: preprocessing, the batch dimension,
    the move to the device and the forward pass; [predictions[0]]. *)
Definition run_inference (image : pyvalue) : M world prediction :=
  img_tensor <- preprocess_image image ;;
  s <- get_self ;;
  img_tensor <- lift (Tensor_to (Tensor_unsqueeze img_tensor 0) (device s)) ;;
  predictions <- match model s with
                 | Some m => lift (Module_call m img_tensor)
                 | None => raise (TypeError "'NoneType' object is not callable")
                 end ;;
  lift (list_getitem predictions 0).

(** The choice of the label table in [detect]. *)
Definition get_class_names : M world (list string) :=
  s <- get_self ;;
  match model s with
  | Some m =>
      match Module_get_class_names m with
      | Some names => ret names
      | None => _get_coco_class_names
      end
  | None => _get_coco_class_names
  end.

(** [score >= confidence_threshold] at line 131: an [np.float32] on the
    left, a Python float on the right. *)
Definition score_ge (sc confidence_threshold : pyfloat) : bool :=
  float_ge sc (threshold_cast confidence_threshold).

(** The loop of [detect] over [zip(boxes, scores, labels)], with
    [acc] the list [detections] built so far. *)
Fixpoint detect_loop (class_names : list string) (confidence_threshold : pyfloat)
    (cands : list (list pyfloat * pyfloat * Z)) (acc : list detection)
  : result (list detection) :=
  match cands with
  | [] => Ok acc
  | (box, sc, lab) :: rest =>
      if score_ge sc confidence_threshold then
        match list_getitem class_names lab with
        | Ok name =>
            detect_loop class_names confidence_threshold rest
              (acc ++ [{| bbox := box; score := sc; label := name; label_id := lab |}])
        | Err e => Err e
        end
      else detect_loop class_names confidence_threshold rest acc
  end.

(** [ImageDetectionModel.detect]. *)
Definition detect (image : pyvalue) (confidence_threshold : pyfloat)
  : M world (list detection) :=
  pred <- run_inference image ;;
  class_names <- get_class_names ;;
  lift (detect_loop class_names confidence_threshold
          (zip3 (pred_boxes pred) (pred_scores pred) (pred_labels pred)) []).

(** ** The driver (detect.py) *)

Definition nl : string := String (ascii_of_nat 10) EmptyString.

Definition print (line : string) : M (list event) unit :=
  modify (fun log : list event => (log ++ [Stdout line])%list).

Definition eprint (line : string) : M (list event) unit :=
  modify (fun log : list event => (log ++ [Stderr line])%list).

(** A method call [obj.m(...)] from the driver: the method runs against
    the instance [obj] refers to and the driver's output. *)
Definition call {A : Type} (obj : ImageDetectionModel) (m : M world A)
  : M (list event) (A * ImageDetectionModel) :=
  fun log =>
    let '(r, w) := m {| self := obj; out := log |} in
    (match r with Ok a => Ok (a, self w) | Err e => Err e end, out w).

(** [try: c  except Exception as e: h e]. *)
Definition try_except {S A : Type} (c : M S A) (h : exn -> M S A) : M S A :=
  fun s =>
    match c s with
    | (Ok a, s') => (Ok a, s')
    | (Err e, s') => if is_Exception e then h e s' else (Err e, s')
    end.

(** [str(e)]. *)
Definition exn_str (e : exn) : string :=
  match e with
  | ValueError msg | IndexError msg | TypeError msg | AttributeError msg
  | LibraryError _ msg => msg
  | SystemExit code => NilZero.string_of_int (Z.to_int code)
  end.

(** The loop [for i, det in enumerate(detections, 1)] of [detect_image]. *)
Fixpoint print_detections (i : nat) (dets : list detection) : M (list event) unit :=
  match dets with
  | [] => ret tt
  | det :: rest =>
      print ("  " ++ str_of_nat i ++ ". " ++ label det ++ " (confidence: "
               ++ format_2f (score det) ++ ")") ;;
      print ("     BBox: " ++ repr_floats (bbox det)) ;;
      print_detections (S i) rest
  end.

(** [detect_image]. *)
Definition detect_image (path : string) (confidence : pyfloat)
    (output : option string) : M (list event) results :=
  (if negb (Path_exists path) then
     eprint ("Error: Image file not found: " ++ path) ;;
     raise (SystemExit 1)
   else ret tt) ;;
  print "Loading detection model..." ;;
  detector <- new "fasterrcnn_resnet50_fpn" None ;;
  print ("Running detection on: " ++ path) ;;
  r <- call detector (detect (PyStr path) confidence) ;;
  let dets := fst r in
  let res := {| image_path := path;
                num_detections := List.length dets;
                detections := dets |} in
  print (nl ++ "Found " ++ str_of_nat (List.length dets) ++ " detection(s):") ;;
  print_detections 1 dets ;;
  match output with
  | Some "" | None => ret tt
  | Some file =>
      lift (json_dump file res) ;;
      modify (fun log : list event => (log ++ [JsonDumped file res])%list) ;;
      print (nl ++ "Results saved to: " ++ file)
  end ;;
  ret res.

Definition range_error_message : string :=
  "Error: Confidence threshold must be between 0.0 and 1.0".

(** [main], after [parser.parse_args()] has produced [args.image],
    [args.confidence] and [args.output]. *)
Definition main (image : string) (confidence : pyfloat) (output : option string)
  : M (list event) unit :=
  (if negb (float_le f0 confidence && float_le confidence f1) then
     eprint range_error_message ;;
     raise (SystemExit 1)
   else ret tt) ;;
  try_except
    (detect_image image confidence output ;; ret tt)
    (fun e => eprint ("Error: " ++ exn_str e) ;; raise (SystemExit 1)).

End Detector.

(** ** Vocabulary of the properties *)

(** A raw candidate: one element of [zip(boxes, scores, labels)]. *)
Definition candidate : Type := list pyfloat * pyfloat * Z.

Definition cand_score (c : candidate) : pyfloat := snd (fst c).
Definition cand_label (c : candidate) : Z := snd c.

(** The candidates of a prediction, in the network's order. *)
Definition candidates (p : prediction) : list candidate :=
  zip3 (pred_boxes p) (pred_scores p) (pred_labels p).

(** The test of the loop of [detect]: [score >= confidence_threshold]
    as the code evaluates it. *)
Definition survives {E : Env} (t : pyfloat) (c : candidate) : bool :=
  score_ge (cand_score c) t.

(** The candidate a detection was made from. *)
Definition raw_of (d : detection) : candidate :=
  (bbox d, score d, label_id d).

(** A label that [class_names[label]] cannot resolve. *)
Definition out_of_range (names : list string) (lab : Z) : Prop :=
  lab < - Z.of_nat (List.length names) \/ Z.of_nat (List.length names) <= lab.

Definition is_build (ev : event) : bool :=
  match ev with
  | CocoClassNamesBuilt => true
  | _ => false
  end.

(** How many times the label table was built in a run. *)
Definition count_builds (log : list event) : nat :=
  List.length (filter is_build log).

Definition is_stderr (ev : event) : bool :=
  match ev with
  | Stderr _ => true
  | _ => false
  end.

(** What was written to [sys.stderr] in a run. *)
Definition stderr_of (log : list event) : list event := filter is_stderr log.

(** The test of [main]: [0.0 <= c <= 1.0]. *)
Definition in_unit_range (c : pyfloat) : bool :=
  float_le f0 c && float_le c f1.

(** The four classes [preprocess_image] tests for. *)
Definition is_image_form {E : Env} (v : pyvalue) : bool :=
  match v with
  | PyStr _ | PyBytes _ | PyArray _ | PyImage _ => true
  | _ => false
  end.

(** Lines 78-85 of [preprocess_image]: the transform of the weights
    if the instance has one, [ToTensor] otherwise. *)
Definition to_tensor {E : Env} (s : ImageDetectionModel) (img : PIL_Image)
  : result Tensor :=
  match transform s with
  | Some t => Transform_call t img
  | None => ToTensor img
  end.

(** The device line 32 settles on. *)
Definition requested_device {E : Env} (dev : option string) : string :=
  match dev with
  | Some "" | None => if cuda_is_available then "cuda" else "cpu"
  | Some d => d
  end.

(** The 80 object categories of COCO, in the order of their ids. *)
Definition coco_category_names : list string :=
  [ "person"; "bicycle"; "car"; "motorcycle"; "airplane"; "bus"; "train";
    "truck"; "boat"; "traffic light"; "fire hydrant"; "stop sign";
    "parking meter"; "bench"; "bird"; "cat"; "dog"; "horse"; "sheep"; "cow";
    "elephant"; "bear"; "zebra"; "giraffe"; "backpack"; "umbrella"; "handbag";
    "tie"; "suitcase"; "frisbee"; "skis"; "snowboard"; "sports ball"; "kite";
    "baseball bat"; "baseball glove"; "skateboard"; "surfboard";
    "tennis racket"; "bottle"; "wine glass"; "cup"; "fork"; "knife"; "spoon";
    "bowl"; "banana"; "apple"; "sandwich"; "orange"; "broccoli"; "carrot";
    "hot dog"; "pizza"; "donut"; "cake"; "chair"; "couch"; "potted plant";
    "bed"; "dining table"; "toilet"; "tv"; "laptop"; "mouse"; "remote";
    "keyboard"; "cell phone"; "microwave"; "oven"; "toaster"; "sink";
    "refrigerator"; "book"; "clock"; "vase"; "scissors"; "teddy bear";
    "hair drier"; "toothbrush" ].

(** The ids COCO leaves unused below 91. *)
Definition coco_unused_ids : list nat :=
  [12; 26; 29; 30; 45; 66; 68; 69; 71; 83]%nat.

(** A method that only reads its instance: from an instance [s] it
    produces a result and a list of events, all satisfying [P], that
    depend on [s] alone, and it leaves [s] as it was. *)
Definition emits {E : Env} {A : Type} (P : event -> Prop) (c : M world A) : Prop :=
  forall s, exists r evs,
    Forall P evs /\
    forall log,
      c {| self := s; out := log |} = (r, {| self := s; out := (log ++ evs)%list |}).

(** A computation that adds to its output only events satisfying [P];
    [log_of] finds the output in the state. *)
Definition appends {S A : Type} (log_of : S -> list event) (P : event -> Prop)
    (c : M S A) : Prop :=
  forall s, exists evs,
    Forall P evs /\ log_of (snd (c s)) = (log_of s ++ evs)%list.

(** The output of the driver is its whole state. *)
Definition the_log (log : list event) : list event := log.

Definition no_event (ev : event) : Prop := False.

Definition not_stderr (ev : event) : Prop := is_stderr ev = false.

Definition not_build (ev : event) : Prop := is_build ev = false.

Definition any_event (ev : event) : Prop := True.

(** ** A stand-in for the external libraries

    Images, tensors and the network carry no data; the network answers
    every tensor with [preds], and has a [get_class_names] attribute
    exactly when [attr] is given.  Only the path ["cat.jpg"] exists.
    Comparisons are carried out in double precision. *)
Definition stub (preds : list prediction) (attr : option (list string)) : Env :=
  {| PIL_Image := unit;
     ndarray := unit;
     Tensor := unit;
     Module := unit;
     Transform := unit;
     cuda_is_available := false;
     fasterrcnn_resnet50_fpn := Ok tt;
     weights_transforms := tt;
     Module_to := fun m _ => Ok m;
     Module_eval := fun m => m;
     Module_get_class_names := fun _ => attr;
     Module_call := fun _ _ => Ok preds;
     Image_open := fun _ => Ok tt;
     Image_open_BytesIO := fun _ => Ok tt;
     Image_fromarray := fun _ => Ok tt;
     Image_convert_RGB := fun i => Ok i;
     Transform_call := fun _ _ => Ok tt;
     ToTensor := fun _ => Ok tt;
     Tensor_unsqueeze := fun t _ => t;
     Tensor_to := fun t _ => Ok t;
     Path_exists := fun p => String.eqb p "cat.jpg";
     format_2f := fun _ => "0.00";
     repr_floats := fun _ => "[]";
     json_dump := fun _ _ => Ok tt;
     threshold_cast := fun t => t;
     threshold_cast_mono := fun _ _ H => H;
     threshold_cast_NaN := eq_refl |}.

Definition box1 : list pyfloat := [Fin 10; Fin 20; Fin 110; Fin 220].
Definition box2 : list pyfloat := [Fin 5; Fin 5; Fin 50; Fin 60].
Definition box3 : list pyfloat := [Fin 0; Fin 0; Fin 30; Fin 40].

(** Three candidates: a person at 0.9, a dog at 0.6, a car at 0.3. *)
Definition three_candidates : prediction :=
  {| pred_boxes := [box1; box2; box3];
     pred_scores := [Fin (9 # 10); Fin (6 # 10); Fin (3 # 10)];
     pred_labels := [1; 18; 3] |}.

(** One candidate at 0.9 whose label is one past the end of the table. *)
Definition label_91 : prediction :=
  {| pred_boxes := [box1];
     pred_scores := [Fin (9 # 10)];
     pred_labels := [91] |}.

(** One candidate at 0.9 whose label is -1. *)
Definition label_minus_1 : prediction :=
  {| pred_boxes := [box1];
     pred_scores := [Fin (9 # 10)];
     pred_labels := [-1] |}.

(** The libraries with a network that proposes [three_candidates], and
    with one that proposes [label_91]; neither network has a
    [get_class_names] attribute. *)
Definition stub3 : Env := stub [three_candidates] None.
Definition stub91 : Env := stub [label_91] None.

(** A decoded image. *)
Definition an_image (preds : list prediction) : @pyvalue (stub preds None) :=
  PyImage (tt : @PIL_Image (stub preds None)).

(** A loaded instance on the CPU, as [new] leaves it under [stub], with
    nothing printed yet. *)
Definition at_start (preds : list prediction) : @world (stub preds None) :=
  {| self := {| device := "cpu"; model_name := "fasterrcnn_resnet50_fpn";
                model := Some (tt : @Module (stub preds None));
                transform := Some (tt : @Transform (stub preds None)) |};
     out := [] |}.

(** The same instance after one [detect] call. *)
Definition after_detect (preds : list prediction) : @world (stub preds None) :=
  {| self := self (at_start preds); out := [CocoClassNamesBuilt] |}.

(** What [detect] makes of [three_candidates] at threshold 0.5. *)
Definition person_and_dog : list detection :=
  [ {| bbox := box1; score := Fin (9 # 10); label := "person"; label_id := 1 |};
    {| bbox := box2; score := Fin (6 # 10); label := "dog"; label_id := 18 |} ].

(** The position [class_names[lab]] reads: a negative label counts
    from the end of the table. *)
Definition table_index (names : list string) (lab : Z) : nat :=
  Z.to_nat (if lab <? 0 then lab + Z.of_nat (List.length names) else lab).

Definition is_dump (ev : event) : bool :=
  match ev with
  | JsonDumped _ _ => true
  | _ => false
  end.

(** The files written in a run. *)
Definition dumps_of (log : list event) : list event := filter is_dump log.

Definition not_dump (ev : event) : Prop := is_dump ev = false.

(** A network with a two-entry label table of its own, and one
    candidate for it. *)
Definition pet_names : list string := ["nothing"; "cat"].

Definition one_cat : prediction :=
  {| pred_boxes := [box1];
     pred_scores := [Fin (9 # 10)];
     pred_labels := [1] |}.

Definition stub_pets : Env := stub [one_cat] (Some pet_names).

Definition at_start_pets : @world stub_pets :=
  {| self := {| device := "cpu"; model_name := "fasterrcnn_resnet50_fpn";
                model := Some (tt : @Module stub_pets);
                transform := Some (tt : @Transform stub_pets) |};
     out := [] |}.

(** The libraries when no file can be opened and the weights cannot be
    fetched. *)
Definition stub_offline : Env :=
  {| PIL_Image := unit;
     ndarray := unit;
     Tensor := unit;
     Module := unit;
     Transform := unit;
     cuda_is_available := true;
     fasterrcnn_resnet50_fpn := Err (LibraryError "URLError" "download failed");
     weights_transforms := tt;
     Module_to := fun m _ => Ok m;
     Module_eval := fun m => m;
     Module_get_class_names := fun _ => None;
     Module_call := fun _ _ => Ok [three_candidates];
     Image_open := fun _ => Err (LibraryError "FileNotFoundError" "No such file");
     Image_open_BytesIO := fun _ => Ok tt;
     Image_fromarray := fun _ => Ok tt;
     Image_convert_RGB := fun i => Ok i;
     Transform_call := fun _ _ => Ok tt;
     ToTensor := fun _ => Ok tt;
     Tensor_unsqueeze := fun t _ => t;
     Tensor_to := fun t _ => Ok t;
     Path_exists := fun p => String.eqb p "cat.jpg";
     format_2f := fun _ => "0.00";
     repr_floats := fun _ => "[]";
     json_dump := fun _ _ => Ok tt;
     threshold_cast := fun t => t;
     threshold_cast_mono := fun _ _ H => H;
     threshold_cast_NaN := eq_refl |}.

Definition at_start_offline : @world stub_offline :=
  {| self := {| device := "cuda"; model_name := "fasterrcnn_resnet50_fpn";
                model := Some (tt : @Module stub_offline);
                transform := Some (tt : @Transform stub_offline) |};
     out := [] |}.

(** A stand-in for a NumPy that compares in a lower precision than the
    Python float has: the threshold is rounded to the nearest eighth
    (eighths standing in for single precision) before the comparison. *)
Definition round_eighth (q : Q) : Q := Qfloor (q * 8 + (1 # 2)) # 8.

Definition coarse_cast (t : pyfloat) : pyfloat :=
  match t with
  | Fin q => Fin (round_eighth q)
  | _ => t
  end.

Definition coarse_cast_mono (a b : pyfloat) :
  float_ge a b = true -> float_ge (coarse_cast a) (coarse_cast b) = true.
Proof.
  destruct a as [| |x|], b as [| |y|]; simpl; try discriminate; try reflexivity.
  intros Hle. apply Qle_bool_iff in Hle. apply Qle_bool_iff.
  assert (Hfloor : (Qfloor (y * 8 + (1 # 2)) <= Qfloor (x * 8 + (1 # 2)))%Z).
  { apply Qfloor_resp_le. lra. }
  unfold round_eighth, Qle. cbn [Qnum Qden]. lia.
Qed.

Definition stub_coarse (preds : list prediction) : Env :=
  {| PIL_Image := unit;
     ndarray := unit;
     Tensor := unit;
     Module := unit;
     Transform := unit;
     cuda_is_available := false;
     fasterrcnn_resnet50_fpn := Ok tt;
     weights_transforms := tt;
     Module_to := fun m _ => Ok m;
     Module_eval := fun m => m;
     Module_get_class_names := fun _ => None;
     Module_call := fun _ _ => Ok preds;
     Image_open := fun _ => Ok tt;
     Image_open_BytesIO := fun _ => Ok tt;
     Image_fromarray := fun _ => Ok tt;
     Image_convert_RGB := fun i => Ok i;
     Transform_call := fun _ _ => Ok tt;
     ToTensor := fun _ => Ok tt;
     Tensor_unsqueeze := fun t _ => t;
     Tensor_to := fun t _ => Ok t;
     Path_exists := fun p => String.eqb p "cat.jpg";
     format_2f := fun _ => "0.00";
     repr_floats := fun _ => "[]";
     json_dump := fun _ _ => Ok tt;
     threshold_cast := coarse_cast;
     threshold_cast_mono := coarse_cast_mono;
     threshold_cast_NaN := eq_refl |}.

(** One person at 0.875, a score the coarse precision holds exactly. *)
Definition person_at_seven_eighths : prediction :=
  {| pred_boxes := [box1];
     pred_scores := [Fin (7 # 8)];
     pred_labels := [1] |}.

Definition at_start_coarse (preds : list prediction) : @world (stub_coarse preds) :=
  {| self := {| device := "cpu"; model_name := "fasterrcnn_resnet50_fpn";
                model := Some (tt : @Module (stub_coarse preds));
                transform := Some (tt : @Transform (stub_coarse preds)) |};
     out := [] |}.

(** The libraries on a machine where the network can only be moved to
    the CPU. *)
Definition stub_cpu_only : Env :=
  {| PIL_Image := unit;
     ndarray := unit;
     Tensor := unit;
     Module := unit;
     Transform := unit;
     cuda_is_available := false;
     fasterrcnn_resnet50_fpn := Ok tt;
     weights_transforms := tt;
     Module_to := fun m d =>
       if String.eqb d "cpu" then Ok m
       else Err (LibraryError "RuntimeError" "no such device");
     Module_eval := fun m => m;
     Module_get_class_names := fun _ => None;
     Module_call := fun _ _ => Ok [three_candidates];
     Image_open := fun _ => Ok tt;
     Image_open_BytesIO := fun _ => Ok tt;
     Image_fromarray := fun _ => Ok tt;
     Image_convert_RGB := fun i => Ok i;
     Transform_call := fun _ _ => Ok tt;
     ToTensor := fun _ => Ok tt;
     Tensor_unsqueeze := fun t _ => t;
     Tensor_to := fun t _ => Ok t;
     Path_exists := fun p => String.eqb p "cat.jpg";
     format_2f := fun _ => "0.00";
     repr_floats := fun _ => "[]";
     json_dump := fun _ _ => Ok tt;
     threshold_cast := fun t => t;
     threshold_cast_mono := fun _ _ H => H;
     threshold_cast_NaN := eq_refl |}.

(** ** Properties *)

Section Properties.

Context {E : Env}.

(** *** Comparisons *)

Lemma float_ge_gt_trans (s t2 t1 : pyfloat) :
  float_gt t2 t1 = true -> float_ge s t2 = true -> float_ge s t1 = true.
Proof.
  destruct s as [| |x|], t2 as [| |y|], t1 as [| |z|]; simpl;
    try discriminate; try reflexivity.
  intros Hgt Hge.
  apply Qle_bool_iff. apply Qle_bool_iff in Hge.
  apply negb_true_iff in Hgt.
  assert (Hlt : (z < y)%Q).
  { apply Qnot_le_lt. intro Hle. apply Qle_bool_iff in Hle. congruence. }
  apply Qle_trans with y; [apply Qlt_le_weak; exact Hlt | exact Hge].
Qed.

Lemma float_gt_ge (a b : pyfloat) : float_gt a b = true -> float_ge a b = true.
Proof.
  destruct a as [| |x|], b as [| |y|]; simpl; try discriminate; try reflexivity.
  intros Hgt. apply negb_true_iff in Hgt. apply Qle_bool_iff.
  apply Qlt_le_weak, Qnot_le_lt. intro Hle. apply Qle_bool_iff in Hle. congruence.
Qed.

Lemma float_ge_trans (a b c : pyfloat) :
  float_ge a b = true -> float_ge b c = true -> float_ge a c = true.
Proof.
  destruct a as [| |x|], b as [| |y|], c as [| |z|]; simpl;
    try discriminate; try reflexivity.
  intros Hab Hbc. apply Qle_bool_iff. apply Qle_bool_iff in Hab, Hbc.
  now apply Qle_trans with y.
Qed.

Lemma score_ge_mono (s t1 t2 : pyfloat) :
  float_gt t2 t1 = true -> score_ge s t2 = true -> score_ge s t1 = true.
Proof.
  unfold score_ge. intros Hgt Hge.
  apply float_ge_trans with (threshold_cast t2); [exact Hge |].
  now apply threshold_cast_mono, float_gt_ge.
Qed.

Lemma survives_mono (t1 t2 : pyfloat) (c : candidate) :
  float_gt t2 t1 = true -> survives t2 c = true -> survives t1 c = true.
Proof. unfold survives. apply score_ge_mono. Qed.

(** *** Indexing *)

Lemma list_getitem_out_of_range (names : list string) (lab : Z) :
  out_of_range names lab ->
  list_getitem names lab = Err (IndexError "list index out of range").
Proof.
  unfold out_of_range, list_getitem. intros H.
  set (n := Z.of_nat (List.length names)) in *.
  assert (Hn : 0 <= n) by (subst n; lia).
  destruct (Z.ltb_spec lab 0) as [Hneg | Hpos].
  - destruct H as [H | H]; [| lia].
    replace (lab + n <? 0) with true by (symmetry; apply Z.ltb_lt; lia).
    reflexivity.
  - destruct H as [H | H]; [lia |].
    replace (lab <? 0) with false by (symmetry; apply Z.ltb_ge; lia).
    replace (n <=? lab) with true by (symmetry; apply Z.leb_le; lia).
    reflexivity.
Qed.

Lemma list_getitem_in_range (names : list string) (lab : Z) :
  ~ out_of_range names lab -> exists name, list_getitem names lab = Ok name.
Proof.
  unfold out_of_range, list_getitem. intros H.
  set (n := Z.of_nat (List.length names)) in *.
  set (j := if lab <? 0 then lab + n else lab).
  assert (Hj : 0 <= j < n).
  { subst j. destruct (Z.ltb_spec lab 0); lia. }
  replace ((j <? 0) || (n <=? j)) with false.
  - destruct (nth_error names (Z.to_nat j)) as [name |] eqn:Hnth.
    + now exists name.
    + apply nth_error_None in Hnth. subst n. lia.
  - symmetry. apply orb_false_iff. split; [apply Z.ltb_ge | apply Z.leb_gt]; lia.
Qed.

Lemma list_getitem_error {A : Type} (l : list A) (i : Z) (e : exn) :
  list_getitem l i = Err e -> e = IndexError "list index out of range".
Proof.
  unfold list_getitem.
  destruct (_ || _); [intros H; now inversion H |].
  destruct (nth_error _ _); intros H; now inversion H.
Qed.

(** *** The loop of [detect] *)

Lemma detect_loop_filter (names : list string) (t : pyfloat)
    (cands : list candidate) :
  forall acc ds,
    detect_loop names t cands acc = Ok ds ->
    exists ds', ds = (acc ++ ds')%list /\
                map raw_of ds' = filter (survives t) cands.
Proof.
  induction cands as [| [[box sc] lab] rest IH]; intros acc ds H; simpl in H.
  - inversion H; subst. exists []. now rewrite app_nil_r.
  - unfold survives, cand_score in *. simpl.
    destruct (score_ge sc t) eqn:Hsc.
    + destruct (list_getitem names lab) as [name | e] eqn:Hlab; [| discriminate].
      destruct (IH _ _ H) as (ds' & -> & Hmap).
      eexists (_ :: ds'). rewrite <- app_assoc. split; [reflexivity |].
      simpl. now rewrite Hmap.
    + exact (IH _ _ H).
Qed.

Lemma detect_loop_raises (names : list string) (t : pyfloat)
    (cands : list candidate) :
  forall acc,
    (exists c, In c cands /\ survives t c = true /\
               out_of_range names (cand_label c)) ->
    detect_loop names t cands acc = Err (IndexError "list index out of range").
Proof.
  induction cands as [| [[box sc] lab] rest IH]; intros acc (c & Hin & Hs & Hout).
  - destruct Hin.
  - simpl. destruct (score_ge sc t) eqn:Hsc.
    + destruct (list_getitem names lab) as [name | e] eqn:Hlab.
      * destruct Hin as [<- | Hin].
        -- unfold cand_label in Hout. simpl in Hout.
           rewrite (list_getitem_out_of_range _ _ Hout) in Hlab. discriminate.
        -- apply IH. now exists c.
      * now rewrite (list_getitem_error _ _ _ Hlab).
    + destruct Hin as [<- | Hin].
      * unfold survives, cand_score in Hs. simpl in Hs. congruence.
      * apply IH. now exists c.
Qed.

Lemma detect_loop_mono (names : list string) (t1 t2 : pyfloat)
    (cands : list candidate) :
  float_gt t2 t1 = true ->
  forall acc1 acc2 ds1,
    detect_loop names t1 cands acc1 = Ok ds1 ->
    incl acc2 acc1 ->
    exists ds2, detect_loop names t2 cands acc2 = Ok ds2 /\ incl ds2 ds1.
Proof.
  intros Hgt.
  induction cands as [| [[box sc] lab] rest IH]; intros acc1 acc2 ds1 H Hincl;
    simpl in *.
  - inversion H; subst. now exists acc2.
  - destruct (score_ge sc t2) eqn:H2.
    + rewrite (score_ge_mono _ _ _ Hgt H2) in H.
      destruct (list_getitem names lab) as [name | e]; [| discriminate].
      apply (IH _ _ _ H).
      intros d Hd. apply in_app_or in Hd. apply in_or_app.
      destruct Hd as [Hd | Hd]; [left; now apply Hincl | now right].
    + destruct (score_ge sc t1).
      * destruct (list_getitem names lab) as [name | e]; [| discriminate].
        apply (IH _ _ _ H).
        intros d Hd. apply in_or_app. left. now apply Hincl.
      * now apply (IH _ _ _ H).
Qed.

(** *** The shape of a [detect] call *)

Lemma get_class_names_total (w : world) :
  exists names evs,
    get_class_names w = (Ok names, {| self := self w; out := (out w ++ evs)%list |}).
Proof.
  unfold get_class_names, get_self, _get_coco_class_names, emit, modify, bind,
    get, ret.
  destruct w as [s log]; simpl.
  destruct (model s) as [m |].
  - destruct (Module_get_class_names m) as [names |].
    + exists names, []. now rewrite app_nil_r.
    + now exists coco_class_names, [CocoClassNamesBuilt].
  - now exists coco_class_names, [CocoClassNamesBuilt].
Qed.

Lemma detect_unfold (image : pyvalue) (t : pyfloat) (w : world) :
  detect image t w =
  match run_inference image w with
  | (Ok pred, w1) =>
      match get_class_names w1 with
      | (Ok names, w2) => (detect_loop names t (candidates pred) [], w2)
      | (Err e, w2) => (Err e, w2)
      end
  | (Err e, w1) => (Err e, w1)
  end.
Proof.
  unfold detect, bind, lift, candidates.
  destruct (run_inference image w) as [[pred | e] w1]; [| reflexivity].
  destruct (get_class_names w1) as [[names | e] w2]; reflexivity.
Qed.

(** *** Methods that only read the instance *)

Lemma emits_ret {A : Type} (P : event -> Prop) (a : A) : emits P (ret a).
Proof.
  intros s. exists (Ok a), []. split; [constructor |].
  intros log. now rewrite app_nil_r.
Qed.

Lemma emits_raise {A : Type} (P : event -> Prop) (e : exn) :
  emits P (@raise world A e).
Proof.
  intros s. exists (Err e), []. split; [constructor |].
  intros log. now rewrite app_nil_r.
Qed.

Lemma emits_lift {A : Type} (P : event -> Prop) (r : result A) :
  emits P (lift r).
Proof.
  intros s. exists r, []. split; [constructor |].
  intros log. now rewrite app_nil_r.
Qed.

Lemma emits_emit (P : event -> Prop) (ev : event) : P ev -> emits P (emit ev).
Proof.
  intros Hev s. exists (Ok tt), [ev]. split; [now constructor | reflexivity].
Qed.

Lemma emits_get_self (P : event -> Prop) : emits P get_self.
Proof.
  intros s. exists (Ok s), []. split; [constructor |].
  intros log. now rewrite app_nil_r.
Qed.

Lemma emits_bind {A B : Type} (P : event -> Prop) (c : M world A)
    (k : A -> M world B) :
  emits P c -> (forall a, emits P (k a)) -> emits P (bind c k).
Proof.
  intros Hc Hk s. destruct (Hc s) as (r & evs & HP & Hrun).
  destruct r as [a | e].
  - destruct (Hk a s) as (r' & evs' & HP' & Hrun').
    exists r', (evs ++ evs')%list. split; [now apply Forall_app |].
    intros log. unfold bind. rewrite Hrun, Hrun'. now rewrite app_assoc.
  - exists (Err e), evs. split; [exact HP |].
    intros log. unfold bind. now rewrite Hrun.
Qed.

Create HintDb emits.
#[local] Hint Resolve emits_ret emits_raise emits_lift emits_get_self
  emits_bind : emits.

Lemma emits_preprocess_image (P : event -> Prop) (image : pyvalue) :
  emits P (preprocess_image image).
Proof.
  unfold preprocess_image.
  apply emits_bind.
  - destruct image; auto with emits.
  - intros img. apply emits_bind; [auto with emits |].
    intros s. destruct (transform s); auto with emits.
Qed.

Lemma emits_run_inference (P : event -> Prop) (image : pyvalue) :
  emits P (run_inference image).
Proof.
  unfold run_inference.
  apply emits_bind; [apply emits_preprocess_image |]. intros x.
  apply emits_bind; [auto with emits |]. intros s.
  apply emits_bind; [auto with emits |]. intros y.
  apply emits_bind; [| auto with emits].
  destruct (model s); auto with emits.
Qed.

Lemma emits_get_coco_class_names (P : event -> Prop) :
  P CocoClassNamesBuilt -> emits P _get_coco_class_names.
Proof.
  intros HP. unfold _get_coco_class_names.
  apply emits_bind; [now apply emits_emit | auto with emits].
Qed.

Lemma emits_get_class_names (P : event -> Prop) :
  P CocoClassNamesBuilt -> emits P get_class_names.
Proof.
  intros HP. unfold get_class_names. apply emits_bind; [auto with emits |].
  intros s. destruct (model s) as [m |].
  - destruct (Module_get_class_names m);
      auto using emits_get_coco_class_names with emits.
  - now apply emits_get_coco_class_names.
Qed.

Lemma emits_detect (P : event -> Prop) (image : pyvalue) (t : pyfloat) :
  P CocoClassNamesBuilt -> emits P (detect image t).
Proof.
  intros HP. unfold detect.
  apply emits_bind; [apply emits_run_inference |]. intros pred.
  apply emits_bind; [now apply emits_get_class_names |]. intros names.
  auto with emits.
Qed.

Lemma emits_self {A : Type} (P : event -> Prop) (c : M world A) (w : world) :
  emits P c -> self (snd (c w)) = self w.
Proof.
  intros Hc. destruct w as [s log]. destruct (Hc s) as (r & evs & _ & Hrun).
  now rewrite Hrun.
Qed.

Lemma emits_again {A : Type} (P : event -> Prop) (c : M world A) (w : world) :
  emits P c -> fst (c (snd (c w))) = fst (c w).
Proof.
  intros Hc. destruct w as [s log]. destruct (Hc s) as (r & evs & _ & Hrun).
  rewrite Hrun. simpl. now rewrite Hrun.
Qed.

Lemma emits_appends {A : Type} (P : event -> Prop) (c : M world A) :
  emits P c -> appends out P c.
Proof.
  intros Hc [s log]. destruct (Hc s) as (r & evs & HP & Hrun).
  exists evs. now rewrite Hrun.
Qed.

Lemma emits_nothing {A : Type} (c : M world A) (w : world) :
  emits no_event c -> snd (c w) = w.
Proof.
  intros Hc. destruct w as [s log]. destruct (Hc s) as (r & evs & HP & Hrun).
  rewrite Hrun. destruct evs as [| ev evs]; [simpl; now rewrite app_nil_r |].
  inversion HP as [| ? ? Hev]. destruct Hev.
Qed.

Lemma run_inference_world (image : pyvalue) (w : world) :
  snd (run_inference image w) = w.
Proof. apply emits_nothing, emits_run_inference. Qed.

(** *** What a computation adds to the output *)

Section Appends.

Context {S : Type} (log_of : S -> list event) (P : event -> Prop).

Lemma appends_ret {A : Type} (a : A) : appends log_of P (ret a).
Proof. intros s. exists []. split; [constructor | now rewrite app_nil_r]. Qed.

Lemma appends_raise {A : Type} (e : exn) : appends log_of P (@raise S A e).
Proof. intros s. exists []. split; [constructor | now rewrite app_nil_r]. Qed.

Lemma appends_lift {A : Type} (r : result A) : appends log_of P (lift r).
Proof. intros s. exists []. split; [constructor | now rewrite app_nil_r]. Qed.

Lemma appends_modify (f : S -> S) :
  (forall s, exists evs, Forall P evs /\ log_of (f s) = (log_of s ++ evs)%list) ->
  appends log_of P (modify f).
Proof. intros Hf s. exact (Hf s). Qed.

Lemma appends_bind {A B : Type} (c : M S A) (k : A -> M S B) :
  appends log_of P c -> (forall a, appends log_of P (k a)) ->
  appends log_of P (bind c k).
Proof.
  intros Hc Hk s. destruct (Hc s) as (evs & HP & Hlog).
  unfold bind. destruct (c s) as [[a | e] s']; simpl in Hlog.
  - destruct (Hk a s') as (evs' & HP' & Hlog').
    exists (evs ++ evs')%list. split; [now apply Forall_app |].
    now rewrite Hlog', Hlog, app_assoc.
  - now exists evs.
Qed.

End Appends.

Create HintDb appends.
#[local] Hint Resolve appends_ret appends_raise appends_lift appends_bind
  : appends.

Lemma appends_set_model (P : event -> Prop) (m : option Module) :
  appends out P (set_model m).
Proof.
  apply appends_modify. intros w. exists []. split; [constructor |].
  simpl. now rewrite app_nil_r.
Qed.

Lemma appends_set_transform (P : event -> Prop) (t : option Transform) :
  appends out P (set_transform t).
Proof.
  apply appends_modify. intros w. exists []. split; [constructor |].
  simpl. now rewrite app_nil_r.
Qed.

Lemma appends_emit (P : event -> Prop) (ev : event) :
  P ev -> appends out P (emit ev).
Proof.
  intros Hev. apply appends_modify. intros w. exists [ev].
  split; [now constructor | reflexivity].
Qed.

Lemma appends_load_model (P : event -> Prop) :
  (forall line, P (Stdout line)) -> appends out P _load_model.
Proof.
  intros HP. unfold _load_model.
  apply appends_bind; [now apply emits_appends, emits_get_self |]. intros s.
  apply appends_bind.
  - destruct (String.eqb _ _);
      auto using appends_set_model, appends_set_transform with appends.
  - intros _.
    apply appends_bind; [now apply emits_appends, emits_get_self |]. intros s'.
    destruct (model s');
      auto 6 using appends_set_model, appends_emit with appends.
Qed.

Lemma appends_init (P : event -> Prop) (name : string) (dev : option string) :
  (forall line, P (Stdout line)) -> appends out P (__init__ name dev).
Proof.
  intros HP. unfold __init__.
  apply appends_bind; [| intros _; now apply appends_load_model].
  apply appends_modify. intros w. exists []. split; [constructor |].
  simpl. now rewrite app_nil_r.
Qed.

Lemma appends_new (P : event -> Prop) (name : string) (dev : option string) :
  (forall line, P (Stdout line)) -> appends the_log P (new name dev).
Proof.
  intros HP log. unfold new, the_log.
  destruct (appends_init P name dev HP {| self := fresh_instance; out := log |})
    as (evs & Hevs & Hlog).
  exists evs. split; [exact Hevs |].
  destruct (__init__ _ _ _) as [r w]. exact Hlog.
Qed.

Lemma appends_call {A : Type} (P : event -> Prop) (obj : ImageDetectionModel)
    (m : M world A) :
  appends out P m -> appends the_log P (call obj m).
Proof.
  intros Hm log. unfold call, the_log.
  destruct (Hm {| self := obj; out := log |}) as (evs & Hevs & Hlog).
  exists evs. split; [exact Hevs |].
  destruct (m _) as [r w]. exact Hlog.
Qed.

Lemma appends_print (P : event -> Prop) (line : string) :
  P (Stdout line) -> appends the_log P (print line).
Proof.
  intros HP. apply appends_modify. intros log. exists [Stdout line].
  split; [now constructor | reflexivity].
Qed.

Lemma appends_print_detections (P : event -> Prop) (dets : list detection) :
  (forall line, P (Stdout line)) ->
  forall i, appends the_log P (print_detections i dets).
Proof.
  intros HP. induction dets as [| det rest IH]; intros i; simpl.
  - apply appends_ret.
  - auto 6 using appends_print with appends.
Qed.

Lemma appends_detect_image (P : event -> Prop) (path : string)
    (confidence : pyfloat) (output : option string) :
  Path_exists path = true ->
  (forall line, P (Stdout line)) -> P CocoClassNamesBuilt ->
  (forall file r, P (JsonDumped file r)) ->
  appends the_log P (detect_image path confidence output).
Proof.
  intros Hpath Hout Hbuild Hdump. unfold detect_image. rewrite Hpath. simpl.
  apply appends_bind; [apply appends_ret |]. intros _.
  apply appends_bind; [now apply appends_print |]. intros _.
  apply appends_bind; [now apply appends_new |]. intros detector.
  apply appends_bind; [now apply appends_print |]. intros _.
  apply appends_bind.
  { apply appends_call, emits_appends. now apply emits_detect. }
  intros r.
  apply appends_bind; [now apply appends_print |]. intros _.
  apply appends_bind; [now apply appends_print_detections |]. intros _.
  apply appends_bind; [| intros _; apply appends_ret].
  assert (Hfile : forall file,
    appends the_log P
      (lift (json_dump file
               {| image_path := path;
                  num_detections := List.length (fst r);
                  detections := fst r |}) ;;
       modify (fun log : list event =>
                 (log ++ [JsonDumped file
                            {| image_path := path;
                               num_detections := List.length (fst r);
                               detections := fst r |}])%list) ;;
       print (nl ++ "Results saved to: " ++ file))).
  { intros file.
    apply appends_bind; [apply appends_lift |]. intros _.
    apply appends_bind; [| intros _; now apply appends_print].
    apply appends_modify. intros log. eexists [_].
    split; [constructor; [apply Hdump | constructor] | reflexivity]. }
  destruct output as [[| a file] |]; [apply appends_ret | apply Hfile | apply appends_ret].
Qed.

(** *** The threshold filter *)

Lemma detect_inv (image : pyvalue) (t : pyfloat) (w w' : world)
    (ds : list detection) :
  detect image t w = (Ok ds, w') ->
  exists pred names,
    run_inference image w = (Ok pred, w) /\
    fst (get_class_names w) = Ok names /\
    detect_loop names t (candidates pred) [] = Ok ds.
Proof.
  rewrite detect_unfold. intros H.
  pose proof (run_inference_world image w) as Hw.
  destruct (run_inference image w) as [[pred | e] w1]; [| discriminate].
  simpl in Hw. subst w1.
  destruct (get_class_names w) as [[names | e] w2]; [| discriminate].
  exists pred, names. repeat split. now inversion H.
Qed.


(** [detect] does return when inference returns and every surviving
    label can be resolved. *)
Lemma detect_returns (image : pyvalue) (t : pyfloat) (w : world)
    (pred : prediction) (names : list string) :
  run_inference image w = (Ok pred, w) ->
  fst (get_class_names w) = Ok names ->
  (forall c, In c (candidates pred) -> survives t c = true ->
             ~ out_of_range names (cand_label c)) ->
  exists ds w', detect image t w = (Ok ds, w').
Proof.
  intros Hrun Hnames Hres. rewrite detect_unfold, Hrun.
  destruct (get_class_names w) as [[names' | e] w2]; simpl in Hnames;
    [| discriminate].
  inversion Hnames; subst names'. clear Hnames Hrun.
  assert (Hloop : forall acc, exists ds,
            detect_loop names t (candidates pred) acc = Ok ds).
  { induction (candidates pred) as [| [[box sc] lab] rest IH]; intros acc.
    - now exists acc.
    - simpl. destruct (score_ge sc t) eqn:Hsc.
      + destruct (list_getitem_in_range names lab) as [name ->].
        { apply (Hres (box, sc, lab)); [now left | exact Hsc]. }
        apply IH. intros c Hc. apply Hres. now right.
      + apply IH. intros c Hc. apply Hres. now right. }
  destruct (Hloop []) as [ds Hds]. exists ds, w2. now rewrite Hds.
Qed.

(** C2 (as the code has it). When a candidate that passes the threshold
    carries a label outside [-len, len) of the label table, [detect]
    raises the interpreter's [IndexError] of the unchecked list
    indexing; the code has no error of its own for this case. *)
Theorem detect_unresolvable_label_raises_IndexError
    (image : pyvalue) (t : pyfloat) (w : world) (pred : prediction)
    (names : list string) :
  run_inference image w = (Ok pred, w) ->
  fst (get_class_names w) = Ok names ->
  (exists c, In c (candidates pred) /\ survives t c = true /\
             out_of_range names (cand_label c)) ->
  fst (detect image t w) = Err (IndexError "list index out of range").
Proof.
  intros Hrun Hnames Hbad. rewrite detect_unfold, Hrun.
  destruct (get_class_names w) as [[names' | e] w2]; simpl in Hnames;
    [| discriminate].
  inversion Hnames; subst names'.
  now rewrite (detect_loop_raises _ _ _ [] Hbad).
Qed.

(** C3. If [detect] returns at threshold [t1], then at any higher
    threshold [t2] it returns too, and every detection it returns at
    [t2] is among those returned at [t1]. *)
Theorem detect_threshold_monotone
    (image : pyvalue) (t1 t2 : pyfloat) (w w1 : world) (ds1 : list detection) :
  float_gt t2 t1 = true ->
  detect image t1 w = (Ok ds1, w1) ->
  exists ds2 w2, detect image t2 w = (Ok ds2, w2) /\ incl ds2 ds1.
Proof.
  intros Hgt H1.
  destruct (detect_inv _ _ _ _ _ H1) as (pred & names & Hrun & Hnames & Hloop).
  rewrite detect_unfold, Hrun.
  destruct (get_class_names w) as [[names' | e] w2]; simpl in Hnames;
    [| discriminate].
  inversion Hnames; subst names'.
  destruct (detect_loop_mono names t1 t2 (candidates pred) Hgt [] [] ds1 Hloop)
    as (ds2 & Hloop2 & Hincl); [apply incl_refl |].
  exists ds2, w2. now rewrite Hloop2.
Qed.

(** *** Construction *)

Lemma load_model_unsupported (w : world) :
  model_name (self w) <> "fasterrcnn_resnet50_fpn" ->
  _load_model w =
  (Err (ValueError ("Unsupported model: " ++ model_name (self w))), w).
Proof.
  intros Hname. apply String.eqb_neq in Hname.
  cbv beta iota delta [_load_model bind get_self get ret raise].
  now rewrite Hname.
Qed.

Lemma run_inference_unloaded (image : pyvalue) (w : world) :
  model (self w) = None -> exists e, fst (run_inference image w) = Err e.
Proof.
  intros Hnone. unfold run_inference.
  pose proof (emits_nothing (preprocess_image image) w
                (emits_preprocess_image _ image)) as Hw.
  unfold bind at 1.
  destruct (preprocess_image image w) as [[x | e] w1]; [| now exists e].
  simpl in Hw. subst w1.
  cbv beta iota delta [bind get_self get ret lift raise].
  destruct (Tensor_to (Tensor_unsqueeze x 0) (device (self w))) as [y | e];
    [| now exists e].
  rewrite Hnone. now eexists.
Qed.

Lemma detect_unloaded (image : pyvalue) (t : pyfloat) (w : world) :
  model (self w) = None -> exists e, fst (detect image t w) = Err e.
Proof.
  intros Hnone. rewrite detect_unfold.
  destruct (run_inference_unloaded image w Hnone) as [e He].
  destruct (run_inference image w) as [[pred | e'] w1]; simpl in He;
    [discriminate | now exists e'].
Qed.

(** C4. Constructing with a model name other than
    ["fasterrcnn_resnet50_fpn"] raises the [ValueError] "Unsupported
    model: ..." and hands no instance to the caller; the instance
    [__init__] was working on holds neither a network nor a transform,
    so no [detect] call on it could return. *)
Theorem new_unsupported_model_raises
    (name : string) (dev : option string) (log : list event) :
  name <> "fasterrcnn_resnet50_fpn" ->
  new name dev log = (Err (ValueError ("Unsupported model: " ++ name)), log) /\
  forall w,
    let w' := snd (__init__ name dev w) in
    fst (__init__ name dev w) = Err (ValueError ("Unsupported model: " ++ name)) /\
    model (self w') = None /\
    transform (self w') = None /\
    out w' = out w /\
    forall image t, exists e, fst (detect image t w') = Err e.
Proof.
  intros Hname.
  assert (Hinit : forall w, exists d,
    __init__ name dev w =
    (Err (ValueError ("Unsupported model: " ++ name)),
     {| self := {| device := d; model_name := name;
                   model := None; transform := None |};
        out := out w |})).
  { intros w. unfold __init__, bind, modify.
    eexists. now rewrite load_model_unsupported. }
  split.
  - unfold new. destruct (Hinit {| self := fresh_instance; out := log |}) as [d ->].
    reflexivity.
  - intros w. destruct (Hinit w) as [d Hw]. cbv zeta. rewrite Hw. simpl.
    repeat split. intros image t. now apply detect_unloaded.
Qed.

(** *** The label table *)

(** C5. The label table is a list of 91 names: ['__background__'] at
    index 0, then the 80 COCO category names in the order of their ids,
    each at the index that is its id, with the placeholder ['N/A'] at
    the ten ids COCO leaves unused; and [_get_coco_class_names] returns
    this list whatever the state. *)
Theorem coco_class_names_table :
  List.length coco_class_names = 91%nat /\
  nth_error coco_class_names 0 = Some "__background__" /\
  filter (fun i => String.eqb (nth i coco_class_names "") "N/A") (seq 0 91)
    = coco_unused_ids /\
  filter (fun name => negb (String.eqb name "N/A")) (tl coco_class_names)
    = coco_category_names /\
  List.length coco_category_names = 80%nat /\
  ~ In "N/A" coco_category_names /\
  ~ In "" coco_class_names /\
  forall w : world, fst (_get_coco_class_names w) = Ok coco_class_names.
Proof.
  split; [reflexivity |]. split; [reflexivity |]. split; [reflexivity |].
  split; [reflexivity |]. split; [reflexivity |].
  split; [| split].
  - intros Hin. unfold coco_category_names in Hin. simpl in Hin.
    repeat (destruct Hin as [Hin | Hin]; [discriminate Hin |]). exact Hin.
  - intros Hin. unfold coco_class_names in Hin. simpl in Hin.
    repeat (destruct Hin as [Hin | Hin]; [discriminate Hin |]). exact Hin.
  - intros w. reflexivity.
Qed.

(** *** Preprocessing *)

Lemma preprocess_decoded (i j : PIL_Image) (x : Tensor) (w : world) :
  Image_convert_RGB i = Ok j -> to_tensor (self w) j = Ok x ->
  (img <- lift (Image_convert_RGB i) ;;
   s <- get_self ;;
   match transform s with
   | Some t => lift (Transform_call t img)
   | None => lift (ToTensor img)
   end) w = (Ok x, w).
Proof.
  intros Hrgb Hx. unfold to_tensor in Hx.
  cbv beta iota delta [bind get_self get ret lift]. rewrite Hrgb.
  destruct (transform (self w)); now rewrite Hx.
Qed.

(** C6. A path string, a bytes buffer, a pixel array and a decoded image
    are the inputs [preprocess_image] takes: when the decoding of the
    input at hand, its conversion to RGB and the transform return, the
    call returns the tensor the transform made and leaves the state
    alone.  On a value of any other type it raises the [ValueError]
    "Unsupported image type: ...". *)
Theorem preprocess_image_accepts_four_forms (w : world) :
  (forall path i j x,
     Image_open path = Ok i -> Image_convert_RGB i = Ok j ->
     to_tensor (self w) j = Ok x ->
     preprocess_image (PyStr path) w = (Ok x, w)) /\
  (forall b i j x,
     Image_open_BytesIO b = Ok i -> Image_convert_RGB i = Ok j ->
     to_tensor (self w) j = Ok x ->
     preprocess_image (PyBytes b) w = (Ok x, w)) /\
  (forall a i j x,
     Image_fromarray a = Ok i -> Image_convert_RGB i = Ok j ->
     to_tensor (self w) j = Ok x ->
     preprocess_image (PyArray a) w = (Ok x, w)) /\
  (forall i j x,
     Image_convert_RGB i = Ok j -> to_tensor (self w) j = Ok x ->
     preprocess_image (PyImage i) w = (Ok x, w)) /\
  (forall v,
     is_image_form v = false ->
     preprocess_image v w =
     (Err (ValueError ("Unsupported image type: " ++ type_repr v)), w)).
Proof.
  assert (Hdecoded : forall (dec : result PIL_Image) i j x,
    dec = Ok i -> Image_convert_RGB i = Ok j -> to_tensor (self w) j = Ok x ->
    (img <- (i0 <- lift dec ;; lift (Image_convert_RGB i0)) ;;
     s <- get_self ;;
     match transform s with
     | Some t => lift (Transform_call t img)
     | None => lift (ToTensor img)
     end) w = (Ok x, w)).
  { intros dec i j x -> Hrgb Hx.
    rewrite <- (preprocess_decoded i j x w Hrgb Hx).
    unfold bind at 1 2. unfold lift at 1. cbv beta iota.
    unfold bind at 2. reflexivity. }
  split; [| split; [| split; [| split]]].
  - intros path i j x. apply Hdecoded.
  - intros b i j x. apply Hdecoded.
  - intros a i j x. apply Hdecoded.
  - intros i j x Hrgb Hx. exact (preprocess_decoded i j x w Hrgb Hx).
  - intros v Hform. destruct v; try discriminate; reflexivity.
Qed.

Lemma count_builds_app (log evs : list event) :
  Forall not_build evs -> count_builds (log ++ evs) = count_builds log.
Proof.
  intros Hevs. unfold count_builds. rewrite filter_app, length_app.
  replace (filter is_build evs) with (@nil event); [simpl; lia |].
  induction Hevs as [| ev evs Hev _ IH]; [reflexivity |].
  simpl. unfold not_build in Hev. now rewrite Hev.
Qed.

Lemma count_builds_snoc (log : list event) :
  count_builds (log ++ [CocoClassNamesBuilt]) = Datatypes.S (count_builds log).
Proof.
  unfold count_builds. rewrite filter_app, length_app. simpl. lia.
Qed.

(** C7 (as the code has it). Construction builds no label table and the
    instance has no attribute for one.  A [detect] call whose network
    has no [get_class_names] attribute builds the table itself, once,
    after inference has returned, and what it builds is the same list
    [coco_class_names] on every call. *)
Theorem label_table_built_by_each_detect_call :
  (forall name dev log,
     count_builds (snd (new name dev log)) = count_builds log) /\
  (forall image t w pred,
     run_inference image w = (Ok pred, w) ->
     (forall m, model (self w) = Some m -> Module_get_class_names m = None) ->
     get_class_names w =
       (Ok coco_class_names,
        {| self := self w; out := (out w ++ [CocoClassNamesBuilt])%list |}) /\
     count_builds (out (snd (detect image t w)))
       = Datatypes.S (count_builds (out w))).
Proof.
  split.
  - intros name dev log.
    destruct (appends_new not_build name dev (fun _ => eq_refl) log)
      as (evs & Hevs & Hlog).
    unfold the_log in Hlog. rewrite Hlog. now apply count_builds_app.
  - intros image t w pred Hrun Hattr.
    assert (Hnames : get_class_names w =
      (Ok coco_class_names,
       {| self := self w; out := (out w ++ [CocoClassNamesBuilt])%list |})).
    { cbv beta iota delta [get_class_names bind get_self get ret
                           _get_coco_class_names emit modify].
      destruct (model (self w)) as [m |] eqn:Hm; [| reflexivity].
      now rewrite (Hattr m eq_refl). }
    split; [exact Hnames |].
    rewrite detect_unfold, Hrun, Hnames. simpl. apply count_builds_snoc.
Qed.

(** *** Repeated calls *)

(** C8. A second [detect] call on the same instance, with the same
    image and threshold, gives the result of the first. *)
Theorem detect_idempotent (image : pyvalue) (t : pyfloat) (w : world) :
  fst (detect image t (snd (detect image t w))) = fst (detect image t w).
Proof. apply (emits_again any_event). now apply emits_detect. Qed.

(** C9. [preprocess_image] and [detect] leave the instance as they
    found it, whether they return or raise: [device], [model],
    [model_name] and [transform] are what they were before the call. *)
Theorem preprocess_and_detect_leave_instance_unchanged
    (image : pyvalue) (t : pyfloat) (w : world) :
  self (snd (preprocess_image image w)) = self w /\
  self (snd (detect image t w)) = self w.
Proof.
  split.
  - apply (emits_self any_event), emits_preprocess_image.
  - apply (emits_self any_event). now apply emits_detect.
Qed.

(** *** The driver *)

Lemma stderr_of_app (log evs : list event) :
  Forall not_stderr evs -> stderr_of (log ++ evs) = stderr_of log.
Proof.
  intros Hevs. unfold stderr_of. rewrite filter_app.
  replace (filter is_stderr evs) with (@nil event); [now rewrite app_nil_r |].
  induction Hevs as [| ev evs Hev _ IH]; [reflexivity |].
  simpl. unfold not_stderr in Hev. now rewrite Hev.
Qed.

Lemma print_detections_returns (dets : list detection) :
  forall i log, fst (print_detections i dets log) = Ok tt.
Proof.
  induction dets as [| det rest IH]; intros i log; [reflexivity |].
  simpl. cbv beta iota delta [bind print modify]. apply IH.
Qed.

Lemma main_rejects_out_of_range (image : string) (c : pyfloat)
    (output : option string) (log : list event) :
  in_unit_range c = false ->
  main image c output log =
  (Err (SystemExit 1), (log ++ [Stderr range_error_message])%list).
Proof.
  unfold in_unit_range, main. intros ->. reflexivity.
Qed.

(** C10. [main] turns a confidence outside [0, 1] away with the range
    message and exit status 1.  [detect_image], called directly on an
    existing path with such a confidence, writes nothing to stderr, and
    hands the confidence as it is to [detect]: it raises what [detect]
    raises at that confidence, and otherwise returns the detections
    [detect] returned (unless dumping them to the output file fails). *)
Theorem detect_image_has_no_range_check
    (path : string) (c : pyfloat) (output : option string) (log : list event) :
  Path_exists path = true ->
  in_unit_range c = false ->
  main path c output log =
    (Err (SystemExit 1), (log ++ [Stderr range_error_message])%list) /\
  stderr_of (snd (detect_image path c output log)) = stderr_of log /\
  forall detector log1,
    new "fasterrcnn_resnet50_fpn" None
      (log ++ [Stdout "Loading detection model..."])%list = (Ok detector, log1) ->
    match fst (detect (PyStr path) c
                 {| self := detector;
                    out := (log1 ++ [Stdout ("Running detection on: " ++ path)])%list |})
    with
    | Err e => fst (detect_image path c output log) = Err e
    | Ok dets =>
        let res := {| image_path := path;
                      num_detections := List.length dets;
                      detections := dets |} in
        fst (detect_image path c output log) = Ok res \/
        exists file e,
          output = Some file /\ json_dump file res = Err e /\
          fst (detect_image path c output log) = Err e
    end.
Proof.
  intros Hpath Hrange. split; [now apply main_rejects_out_of_range |]. split.
  - destruct (appends_detect_image not_stderr path c output Hpath
                (fun _ => eq_refl) eq_refl (fun _ _ => eq_refl) log)
      as (evs & Hevs & Hlog).
    unfold the_log in Hlog. rewrite Hlog. now apply stderr_of_app.
  - intros detector log1 Hnew.
    unfold detect_image. rewrite Hpath.
    cbv beta iota delta [negb bind ret print modify call]. rewrite Hnew.
    destruct (detect (PyStr path) c _) as [[dets | e] w2]; [| reflexivity].
    cbv beta iota delta [fst].
    match goal with
    | |- context [print_detections 1 dets ?l] =>
        pose proof (print_detections_returns dets 1 l) as Hprint;
        destruct (print_detections 1 dets l) as [r log3]
    end.
    simpl in Hprint. subst r.
    destruct output as [[| a file] |]; [now left | | now left].
    cbv beta iota delta [lift].
    destruct (json_dump _ _) as [[] | e] eqn:Hdump.
    + now left.
    + right. exists (String a file), e. repeat split. exact Hdump.
Qed.

End Properties.

(** ** The properties at concrete inputs *)


(** The comparison is the one of the libraries in use.  Where the
    threshold is first rounded to the precision of the scores, a score
    of 0.875 passes the threshold 0.9, which rounds to 0.875; where the
    comparison is carried out in double precision it does not. *)
Example detect_compares_with_the_converted_threshold :
  float_ge (Fin (7 # 8)) (Fin (9 # 10)) = false /\
  fst (detect (E := stub_coarse [person_at_seven_eighths]) (PyStr "cat.jpg")
         (Fin (9 # 10)) (at_start_coarse _))
    = Ok [ {| bbox := box1; score := Fin (7 # 8);
              label := "person"; label_id := 1 |} ] /\
  fst (detect (E := stub [person_at_seven_eighths] None) (an_image _)
         (Fin (9 # 10)) (at_start _))
    = Ok [].
Proof. repeat split. Qed.

(** C2 fails on the code: a candidate at 0.9 with label 91, one past the
    end of the 91-entry table, passes the threshold 0.5, and [detect]
    lets the [IndexError] of the list indexing through. *)
Lemma detect_label_91_surfaces_IndexError :
  In (box1, Fin (9 # 10), 91) (candidates label_91) /\
  survives (E := stub91) f05 (box1, Fin (9 # 10), 91) = true /\
  out_of_range coco_class_names 91 /\
  fst (get_class_names (E := stub91) (at_start _)) = Ok coco_class_names /\
  fst (detect (E := stub91) (an_image _) f05 (at_start _))
    = Err (IndexError "list index out of range").
Proof.
  split; [now left |]. split; [reflexivity |].
  split; [right; vm_compute; discriminate |].
  split; reflexivity.
Qed.

(** A negative label within the length of the table is not rejected:
    [class_names[-1]] is the last entry. *)
Example detect_label_minus_1_resolves_from_the_end :
  fst (detect (E := stub [label_minus_1] None) (an_image _) f05 (at_start _))
    = Ok [ {| bbox := box1; score := Fin (9 # 10);
              label := "toothbrush"; label_id := -1 |} ].
Proof. reflexivity. Qed.

Lemma detect_unresolvable_label_raises_IndexError_witness :
  run_inference (E := stub91) (an_image _) (at_start _) = (Ok label_91, at_start _) /\
  fst (get_class_names (E := stub91) (at_start _)) = Ok coco_class_names /\
  (exists c, In c (candidates label_91) /\
             survives (E := stub91) f05 c = true /\
             out_of_range coco_class_names (cand_label c)) /\
  fst (detect (E := stub91) (an_image _) f05 (at_start _))
    = Err (IndexError "list index out of range").
Proof.
  assert (Hbad : exists c, In c (candidates label_91) /\
                           survives (E := stub91) f05 c = true /\
                           out_of_range coco_class_names (cand_label c)).
  { exists (box1, Fin (9 # 10), 91).
    split; [now left |]. split; [reflexivity |].
    right. vm_compute. discriminate. }
  split; [reflexivity |]. split; [reflexivity |]. split; [exact Hbad |].
  exact (detect_unresolvable_label_raises_IndexError (E := stub91)
           (an_image _) f05 (at_start _) label_91 coco_class_names
           eq_refl eq_refl Hbad).
Defined.

Lemma detect_threshold_monotone_witness :
  float_gt (Fin (7 # 10)) f05 = true /\
  detect (E := stub3) (an_image _) f05 (at_start _)
    = (Ok person_and_dog, after_detect _) /\
  exists ds2 w2,
    detect (E := stub3) (an_image _) (Fin (7 # 10)) (at_start _) = (Ok ds2, w2) /\
    incl ds2 person_and_dog.
Proof.
  split; [reflexivity |]. split; [reflexivity |].
  exact (detect_threshold_monotone (E := stub3) (an_image _) f05 (Fin (7 # 10))
           (at_start _) (after_detect _) person_and_dog eq_refl eq_refl).
Defined.

Lemma new_unsupported_model_raises_witness :
  "yolov5" <> "fasterrcnn_resnet50_fpn" /\
  (new (E := stub3) "yolov5" None []
     = (Err (ValueError ("Unsupported model: " ++ "yolov5")), []) /\
   forall w,
     let w' := snd (__init__ (E := stub3) "yolov5" None w) in
     fst (__init__ (E := stub3) "yolov5" None w)
       = Err (ValueError ("Unsupported model: " ++ "yolov5")) /\
     model (self w') = None /\
     transform (self w') = None /\
     out w' = out w /\
     forall image t, exists e, fst (detect image t w') = Err e).
Proof.
  assert (Hname : "yolov5" <> "fasterrcnn_resnet50_fpn") by discriminate.
  split; [exact Hname |].
  exact (new_unsupported_model_raises (E := stub3) "yolov5" None [] Hname).
Defined.

Lemma preprocess_image_accepts_four_forms_witness :
  (Image_open (Env := stub3) "cat.jpg" = Ok tt /\
   Image_convert_RGB (Env := stub3) tt = Ok tt /\
   to_tensor (E := stub3) (self (at_start _)) tt = Ok tt /\
   preprocess_image (E := stub3) (PyStr "cat.jpg") (at_start _)
     = (Ok tt, at_start _)) /\
  (Image_open_BytesIO (Env := stub3) [] = Ok tt /\
   preprocess_image (E := stub3) (PyBytes []) (at_start _)
     = (Ok tt, at_start _)) /\
  (Image_fromarray (Env := stub3) tt = Ok tt /\
   preprocess_image (E := stub3) (PyArray (tt : @ndarray stub3)) (at_start _)
     = (Ok tt, at_start _)) /\
  preprocess_image (E := stub3) (an_image _) (at_start _)
    = (Ok tt, at_start _) /\
  (is_image_form (E := stub3) (PyInt 7) = false /\
   preprocess_image (E := stub3) (PyInt 7) (at_start _)
     = (Err (ValueError ("Unsupported image type: "
                           ++ type_repr (E := stub3) (PyInt 7))), at_start _)).
Proof.
  destruct (preprocess_image_accepts_four_forms (E := stub3) (at_start _))
    as (Hpath & Hbytes & Harray & Himage & Hother).
  split; [| split; [| split; [| split]]].
  - split; [reflexivity |]. split; [reflexivity |]. split; [reflexivity |].
    exact (Hpath "cat.jpg" tt tt tt eq_refl eq_refl eq_refl).
  - split; [reflexivity |].
    exact (Hbytes [] tt tt tt eq_refl eq_refl eq_refl).
  - split; [reflexivity |].
    exact (Harray tt tt tt tt eq_refl eq_refl eq_refl).
  - exact (Himage tt tt tt eq_refl eq_refl).
  - split; [reflexivity |].
    exact (Hother (PyInt 7) eq_refl).
Defined.

(** C7 fails on the code: construction builds no label table, and every
    [detect] call builds one, so that two calls have built two. *)
Lemma label_table_built_in_detect_not_in_new :
  new (E := stub3) "fasterrcnn_resnet50_fpn" None []
    = (Ok (self (at_start _)), [Stdout "Model loaded on device: cpu"]) /\
  count_builds (snd (new (E := stub3) "fasterrcnn_resnet50_fpn" None [])) = 0%nat /\
  count_builds (out (snd (detect (E := stub3) (an_image _) f05 (at_start _))))
    = 1%nat /\
  count_builds
    (out (snd (detect (E := stub3) (an_image _) f05
                 (snd (detect (E := stub3) (an_image _) f05 (at_start _))))))
    = 2%nat.
Proof. repeat split. Qed.

Lemma label_table_built_by_each_detect_call_witness :
  run_inference (E := stub3) (an_image _) (at_start _)
    = (Ok three_candidates, at_start _) /\
  (forall m, model (self (at_start [three_candidates])) = Some m ->
             Module_get_class_names (Env := stub3) m = None) /\
  get_class_names (E := stub3) (at_start _)
    = (Ok coco_class_names, after_detect _) /\
  count_builds (out (snd (detect (E := stub3) (an_image _) f05 (at_start _))))
    = Datatypes.S (count_builds (out (at_start [three_candidates]))).
Proof.
  split; [reflexivity |]. split; [intros m _; reflexivity |].
  exact (proj2 (label_table_built_by_each_detect_call (E := stub3))
           (an_image _) f05 (at_start _) three_candidates
           eq_refl (fun m _ => eq_refl)).
Defined.

Lemma detect_image_has_no_range_check_witness :
  Path_exists (Env := stub3) "cat.jpg" = true /\
  in_unit_range (Fin (3 # 2)) = false /\
  main (E := stub3) "cat.jpg" (Fin (3 # 2)) None []
    = (Err (SystemExit 1), [Stderr range_error_message]) /\
  stderr_of (snd (detect_image (E := stub3) "cat.jpg" (Fin (3 # 2)) None []))
    = stderr_of [] /\
  fst (detect_image (E := stub3) "cat.jpg" (Fin (3 # 2)) None [])
    = Ok {| image_path := "cat.jpg"; num_detections := 0; detections := [] |}.
Proof.
  split; [reflexivity |]. split; [reflexivity |].
  destruct (detect_image_has_no_range_check (E := stub3) "cat.jpg" (Fin (3 # 2))
              None [] eq_refl eq_refl) as (Hmain & Hstderr & _).
  split; [exact Hmain |]. split; [exact Hstderr | reflexivity].
Defined.

(** ** Further properties of the code *)

Section MoreProperties.

Context {E : Env}.

(** *** Construction *)

Lemma init_supported (dev : option string) (w : world) :
  exists d,
    (forall s, dev = Some s -> s <> "" -> d = s) /\
    (dev = None \/ dev = Some "" ->
     d = if cuda_is_available then "cuda" else "cpu") /\
    __init__ "fasterrcnn_resnet50_fpn" dev w =
    match fasterrcnn_resnet50_fpn with
    | Err e =>
        (Err e,
         {| self := {| device := d; model_name := "fasterrcnn_resnet50_fpn";
                       model := None; transform := None |};
            out := out w |})
    | Ok m =>
        match Module_to m d with
        | Err e =>
            (Err e,
             {| self := {| device := d; model_name := "fasterrcnn_resnet50_fpn";
                           model := Some m; transform := Some weights_transforms |};
                out := out w |})
        | Ok m' =>
            (Ok tt,
             {| self := {| device := d; model_name := "fasterrcnn_resnet50_fpn";
                           model := Some (Module_eval m');
                           transform := Some weights_transforms |};
                out := (out w ++ [Stdout ("Model loaded on device: " ++ d)])%list |})
        end
    end.
Proof.
  exists (match dev with
          | Some "" | None => if cuda_is_available then "cuda" else "cpu"
          | Some d => d
          end).
  split; [| split].
  - intros s -> Hs. destruct s; [now destruct Hs | reflexivity].
  - intros [-> | ->]; reflexivity.
  - set (d := match dev with Some "" | None => _ | Some d => d end).
    cbv beta iota zeta delta [__init__ _load_model bind modify get_self get ret
                              raise lift set_model set_transform emit].
    fold d. simpl.
    destruct fasterrcnn_resnet50_fpn as [m | e]; [simpl | reflexivity].
    destruct (Module_to m d) as [m' | e]; reflexivity.
Qed.

Lemma new_other_name (name : string) (dev : option string) (log : list event) :
  name <> "fasterrcnn_resnet50_fpn" ->
  new name dev log = (Err (ValueError ("Unsupported model: " ++ name)), log).
Proof.
  intros Hname. unfold new, __init__, bind, modify.
  now rewrite load_model_unsupported.
Qed.

Lemma new_supported (dev : option string) (log : list event) :
  new "fasterrcnn_resnet50_fpn" dev log =
  match fasterrcnn_resnet50_fpn with
  | Err e => (Err e, log)
  | Ok m =>
      match Module_to m (requested_device dev) with
      | Err e => (Err e, log)
      | Ok m' =>
          (Ok {| device := requested_device dev;
                 model_name := "fasterrcnn_resnet50_fpn";
                 model := Some (Module_eval m');
                 transform := Some weights_transforms |},
           (log ++ [Stdout ("Model loaded on device: " ++ requested_device dev)])%list)
      end
  end.
Proof.
  unfold new, requested_device.
  set (d := match dev with Some "" | None => _ | Some d => d end).
  cbv beta iota zeta delta [__init__ _load_model bind modify get_self get ret
                            raise lift set_model set_transform emit].
  fold d. simpl.
  destruct fasterrcnn_resnet50_fpn as [m | e]; [simpl | reflexivity].
  destruct (Module_to m d) as [m' | e]; reflexivity.
Qed.

(** X1. With the supported model name, construction succeeds as soon as
    the weights load and the network can be moved to the device line 32
    settles on: the instance returned holds that device, the network
    moved to it and put in evaluation mode, and the transform of the
    weights, and the device has been reported on stdout, once. *)
Theorem new_supported_model_returns
    (dev : option string) (log : list event) (m m' : Module) :
  fasterrcnn_resnet50_fpn = Ok m ->
  Module_to m (requested_device dev) = Ok m' ->
  new "fasterrcnn_resnet50_fpn" dev log =
  (Ok {| device := requested_device dev;
         model_name := "fasterrcnn_resnet50_fpn";
         model := Some (Module_eval m');
         transform := Some weights_transforms |},
   (log ++ [Stdout ("Model loaded on device: " ++ requested_device dev)])%list).
Proof.
  intros Hload Hto. now rewrite new_supported, Hload, Hto.
Qed.

(** X2. A failure of the libraries during construction (the weights
    cannot be loaded, or the network cannot be moved to the device
    line 32 settles on) leaves the constructor as it is, and nothing
    has been printed. *)
Theorem new_propagates_library_failure
    (dev : option string) (log : list event) (e : exn) :
  (fasterrcnn_resnet50_fpn = Err e ->
   new "fasterrcnn_resnet50_fpn" dev log = (Err e, log)) /\
  (forall m, fasterrcnn_resnet50_fpn = Ok m ->
             Module_to m (requested_device dev) = Err e ->
             new "fasterrcnn_resnet50_fpn" dev log = (Err e, log)).
Proof.
  split.
  - intros Hload. now rewrite new_supported, Hload.
  - intros m Hload Hto. now rewrite new_supported, Hload, Hto.
Qed.

(** X3. The constructor prints its one line exactly when it returns an
    instance: on success the output grows by "Model loaded on device:
    ..." with the device of the instance, on any failure it is as
    before. *)
Theorem new_prints_only_on_success
    (name : string) (dev : option string) (log : list event) :
  snd (new name dev log) =
  match fst (new name dev log) with
  | Ok inst => (log ++ [Stdout ("Model loaded on device: " ++ device inst)])%list
  | Err _ => log
  end.
Proof.
  destruct (String.eqb_spec name "fasterrcnn_resnet50_fpn") as [-> | Hname].
  - destruct (init_supported dev {| self := fresh_instance; out := log |})
      as (d & _ & _ & Hinit).
    unfold new. rewrite Hinit.
    destruct fasterrcnn_resnet50_fpn as [m | e]; [| reflexivity].
    destruct (Module_to m d) as [m' | e]; reflexivity.
  - now rewrite new_other_name.
Qed.

(** X4. An instance the constructor returns is fully initialised: its
    name is the supported one, its network is a loaded network moved to
    the instance's device and put in evaluation mode, its transform is
    the one of the weights, and its device is the one asked for, or
    ['cuda'] if available and ['cpu'] otherwise when none (or the empty
    string) was asked for. *)
Theorem new_instance_is_loaded
    (name : string) (dev : option string) (log log' : list event)
    (inst : ImageDetectionModel) :
  new name dev log = (Ok inst, log') ->
  name = "fasterrcnn_resnet50_fpn" /\
  model_name inst = "fasterrcnn_resnet50_fpn" /\
  (exists m m', fasterrcnn_resnet50_fpn = Ok m /\
                Module_to m (device inst) = Ok m' /\
                model inst = Some (Module_eval m')) /\
  transform inst = Some weights_transforms /\
  (forall s, dev = Some s -> s <> "" -> device inst = s) /\
  (dev = None \/ dev = Some "" ->
   device inst = if cuda_is_available then "cuda" else "cpu").
Proof.
  destruct (String.eqb_spec name "fasterrcnn_resnet50_fpn") as [-> | Hname].
  - destruct (init_supported dev {| self := fresh_instance; out := log |})
      as (d & Hsome & Hnone & Hinit).
    unfold new. rewrite Hinit.
    destruct fasterrcnn_resnet50_fpn as [m | e]; [| discriminate].
    destruct (Module_to m d) as [m' | e] eqn:Hto; [| discriminate].
    intros H. inversion H; subst inst log'. simpl.
    repeat split; try assumption. now exists m, m'.
  - rewrite new_other_name by assumption. discriminate.
Qed.

(** *** Detection *)

Lemma list_getitem_ok (names : list string) (lab : Z) (name : string) :
  list_getitem names lab = Ok name ->
  - Z.of_nat (List.length names) <= lab < Z.of_nat (List.length names) /\
  nth_error names (table_index names lab) = Some name.
Proof.
  unfold list_getitem, table_index.
  set (n := Z.of_nat (List.length names)).
  set (j := if lab <? 0 then lab + n else lab).
  destruct ((j <? 0) || (n <=? j)) eqn:Hout; [discriminate |].
  apply orb_false_iff in Hout. destruct Hout as [Hlo Hhi].
  apply Z.ltb_ge in Hlo. apply Z.leb_gt in Hhi.
  destruct (nth_error names (Z.to_nat j)) as [a |]; [| discriminate].
  intros H. inversion H; subst a. split; [| reflexivity].
  subst j. destruct (Z.ltb_spec lab 0); lia.
Qed.

Lemma detect_loop_post (names : list string) (t : pyfloat)
    (P : detection -> Prop) (cands : list candidate) :
  (forall box sc lab name,
     score_ge sc t = true -> list_getitem names lab = Ok name ->
     P {| bbox := box; score := sc; label := name; label_id := lab |}) ->
  forall acc ds,
    detect_loop names t cands acc = Ok ds -> Forall P acc -> Forall P ds.
Proof.
  intros HP.
  induction cands as [| [[box sc] lab] rest IH]; intros acc ds H Hacc; simpl in H.
  - now inversion H; subst.
  - destruct (score_ge sc t) eqn:Hsc; [| now apply (IH _ _ H)].
    destruct (list_getitem names lab) as [name | e] eqn:Hlab; [| discriminate].
    apply (IH _ _ H). apply Forall_app. split; [exact Hacc |].
    constructor; [now apply HP | constructor].
Qed.

(** X5. Every detection [detect] returns has a score that passes the
    test [score >= confidence_threshold] of the loop, a label id within
    [-len, len) of the label table in use, and as label the table entry
    at that id (counted from the end of the table if the id is
    negative). *)
Theorem detect_results_pass_threshold_and_resolve
    (image : pyvalue) (t : pyfloat) (w w' : world) (ds : list detection) :
  detect image t w = (Ok ds, w') ->
  exists names,
    fst (get_class_names w) = Ok names /\
    Forall (fun d =>
              score_ge (score d) t = true /\
              - Z.of_nat (List.length names) <= label_id d
                < Z.of_nat (List.length names) /\
              nth_error names (table_index names (label_id d)) = Some (label d))
           ds.
Proof.
  intros H. destruct (detect_inv _ _ _ _ _ H) as (pred & names & _ & Hnames & Hloop).
  exists names. split; [exact Hnames |].
  refine (detect_loop_post names t _ (candidates pred) _ [] ds Hloop
            (Forall_nil _)).
  intros box sc lab name Hsc Hlab. simpl. split; [exact Hsc |].
  now apply list_getitem_ok.
Qed.

Lemma zip3_length {A B C : Type} (a : list A) (b : list B) (c : list C) :
  (List.length (zip3 a b c) <= List.length a /\
   List.length (zip3 a b c) <= List.length b /\
   List.length (zip3 a b c) <= List.length c)%nat.
Proof.
  revert b c. induction a as [| x a IH]; intros [| y b] [| z c]; simpl;
    try lia.
  specialize (IH b c). lia.
Qed.

(** X6. [detect] returns at most as many detections as the shortest of
    the three arrays of the network holds; when one of them is empty it
    returns the empty list. *)
Theorem detect_returns_no_more_than_candidates
    (image : pyvalue) (t : pyfloat) (w w' : world) (ds : list detection) :
  detect image t w = (Ok ds, w') ->
  exists pred,
    run_inference image w = (Ok pred, w) /\
    (List.length ds <= List.length (pred_boxes pred) /\
     List.length ds <= List.length (pred_scores pred) /\
     List.length ds <= List.length (pred_labels pred))%nat.
Proof.
  intros H. destruct (detect_inv _ _ _ _ _ H) as (pred & names & Hrun & _ & Hloop).
  exists pred. split; [exact Hrun |].
  destruct (detect_loop_filter _ _ _ _ _ Hloop) as (ds' & -> & Hmap).
  simpl. rewrite <- (length_map raw_of), Hmap.
  pose proof (filter_length_le (survives t) (candidates pred)) as Hle.
  pose proof (zip3_length (pred_boxes pred) (pred_scores pred) (pred_labels pred))
    as Hzip.
  unfold candidates in *. destruct Hzip as (Hb & Hs & Hl).
  repeat split; (eapply Nat.le_trans; [exact Hle | assumption]).
Qed.

(** X7. When every candidate reaches the threshold, [detect], if it
    returns, returns all of them: read back as raw candidates its list
    is the network's candidate list. *)
Theorem detect_returns_all_when_all_pass
    (image : pyvalue) (t : pyfloat) (w w' : world) (ds : list detection)
    (pred : prediction) :
  run_inference image w = (Ok pred, w) ->
  (forall c, In c (candidates pred) -> survives t c = true) ->
  detect image t w = (Ok ds, w') ->
  map raw_of ds = candidates pred.
Proof.
  intros Hrun Hall H.
  destruct (detect_inv _ _ _ _ _ H) as (pred' & names & Hrun' & _ & Hloop).
  rewrite Hrun in Hrun'. inversion Hrun'; subst pred'.
  destruct (detect_loop_filter _ _ _ _ _ Hloop) as (ds' & -> & Hmap).
  simpl. rewrite Hmap. apply forallb_filter_id.
  apply forallb_forall. exact Hall.
Qed.

Lemma detect_loop_NaN (names : list string) (cands : list candidate) :
  forall acc, detect_loop names NaN cands acc = Ok acc.
Proof.
  induction cands as [| [[box sc] lab] rest IH]; intros acc; [reflexivity |].
  simpl. replace (score_ge sc NaN) with false
    by (unfold score_ge; rewrite threshold_cast_NaN; now destruct sc).
  apply IH.
Qed.

(** X8. With a NaN threshold no comparison holds: whenever inference
    returns, [detect] returns the empty list, whatever the scores and
    the labels. *)
Theorem detect_NaN_threshold_returns_nothing
    (image : pyvalue) (w : world) (pred : prediction) :
  run_inference image w = (Ok pred, w) ->
  fst (detect image NaN w) = Ok [].
Proof.
  intros Hrun. rewrite detect_unfold, Hrun.
  destruct (get_class_names_total w) as (names & evs & ->).
  simpl. apply detect_loop_NaN.
Qed.

(** X9. An exception of [preprocess_image] (an unsupported type, a file
    that cannot be decoded) leaves [detect] unchanged, before the
    network is called or anything else happens: the state is as it
    was. *)
Theorem detect_propagates_preprocess_error
    (image : pyvalue) (t : pyfloat) (w : world) (e : exn) :
  fst (preprocess_image image w) = Err e ->
  detect image t w = (Err e, w).
Proof.
  intros Hpre.
  pose proof (emits_nothing (preprocess_image image) w
                (emits_preprocess_image _ image)) as Hw.
  unfold detect, run_inference. unfold bind at 1 2.
  destruct (preprocess_image image w) as [r w1]. simpl in Hpre, Hw.
  now subst r w1.
Qed.

(** X10. When the network has a [get_class_names] attribute, [detect]
    takes the label table from it: the COCO list is not built, the call
    leaves the whole state as it was, and the labels of the detections
    are entries of the network's table. *)
Theorem detect_uses_class_names_of_the_network
    (image : pyvalue) (t : pyfloat) (w : world) (m : Module)
    (names : list string) :
  model (self w) = Some m ->
  Module_get_class_names m = Some names ->
  snd (detect image t w) = w /\
  forall ds, fst (detect image t w) = Ok ds ->
             Forall (fun d => In (label d) names) ds.
Proof.
  intros Hm Hattr.
  assert (Hnames : get_class_names w = (Ok names, w)).
  { cbv beta iota delta [get_class_names bind get_self get ret].
    now rewrite Hm, Hattr. }
  rewrite detect_unfold.
  pose proof (run_inference_world image w) as Hw.
  destruct (run_inference image w) as [[pred | e] w1]; simpl in Hw; subst w1.
  - rewrite Hnames. split; [reflexivity |].
    intros ds Hds. simpl in Hds.
    refine (detect_loop_post names t _ (candidates pred) _ [] ds Hds
              (Forall_nil _)).
    intros box sc lab name _ Hlab. simpl.
    apply list_getitem_ok in Hlab. destruct Hlab as [_ Hnth].
    now apply nth_error_In in Hnth.
  - split; [reflexivity | discriminate].
Qed.

(** X11. A path, a bytes buffer and a pixel array are preprocessed like
    the image they decode to: once [Image.open] or [Image.fromarray] has
    returned image [i], [preprocess_image] does with the input what it
    does with [i]. *)
Theorem preprocess_image_forms_agree (w : world) (i : PIL_Image) :
  (forall path, Image_open path = Ok i ->
     preprocess_image (PyStr path) w = preprocess_image (PyImage i) w) /\
  (forall b, Image_open_BytesIO b = Ok i ->
     preprocess_image (PyBytes b) w = preprocess_image (PyImage i) w) /\
  (forall a, Image_fromarray a = Ok i ->
     preprocess_image (PyArray a) w = preprocess_image (PyImage i) w).
Proof.
  repeat split; intros x Hx; unfold preprocess_image;
    unfold bind at 1 2; unfold lift at 1; rewrite Hx;
    unfold bind at 1; reflexivity.
Qed.

(** X12. A decoding failure is the failure of [preprocess_image]: when
    [Image.open] raises on a path, [preprocess_image] raises the same
    exception and so does [detect]. *)
Theorem detect_propagates_decode_error
    (path : string) (t : pyfloat) (w : world) (e : exn) :
  Image_open path = Err e ->
  preprocess_image (PyStr path) w = (Err e, w) /\
  detect (PyStr path) t w = (Err e, w).
Proof.
  intros Hopen.
  assert (Hpre : preprocess_image (PyStr path) w = (Err e, w)).
  { unfold preprocess_image. unfold bind at 1 2. unfold lift at 1.
    now rewrite Hopen. }
  split; [exact Hpre |].
  apply detect_propagates_preprocess_error. now rewrite Hpre.
Qed.

(** *** The driver *)

Lemma detect_image_unfold (path : string) (c : pyfloat) (output : option string)
    (log : list event) :
  detect_image path c output log =
  if Path_exists path then
    match new "fasterrcnn_resnet50_fpn" None
            (log ++ [Stdout "Loading detection model..."])%list with
    | (Err e, log1) => (Err e, log1)
    | (Ok detector, log1) =>
        match detect (PyStr path) c
                {| self := detector;
                   out := (log1 ++ [Stdout ("Running detection on: " ++ path)])%list |}
        with
        | (Err e, w2) => (Err e, out w2)
        | (Ok dets, w2) =>
            let res := {| image_path := path;
                          num_detections := List.length dets;
                          detections := dets |} in
            let log3 :=
              snd (print_detections 1 dets
                     (out w2 ++ [Stdout (nl ++ "Found " ++ str_of_nat (List.length dets)
                                            ++ " detection(s):")])%list) in
            match output with
            | Some "" | None => (Ok res, log3)
            | Some file =>
                match json_dump file res with
                | Ok _ =>
                    (Ok res,
                     (log3 ++ [JsonDumped file res;
                               Stdout (nl ++ "Results saved to: " ++ file)])%list)
                | Err e => (Err e, log3)
                end
            end
        end
    end
  else
    (Err (SystemExit 1), (log ++ [Stderr ("Error: Image file not found: " ++ path)])%list).
Proof.
  unfold detect_image.
  destruct (Path_exists path); [| reflexivity].
  cbv beta iota zeta delta [negb bind ret print modify call lift].
  destruct (new _ _ _) as [[detector | e] log1]; [| reflexivity].
  destruct (detect _ _ _) as [[dets | e] w2]; [| reflexivity].
  cbv beta iota delta [fst].
  match goal with
  | |- context [print_detections 1 dets ?l] =>
      pose proof (print_detections_returns dets 1 l) as Hprint;
      destruct (print_detections 1 dets l) as [r log3]
  end.
  simpl in Hprint. subst r. cbv beta iota delta [snd].
  destruct output as [[| a file] |]; [reflexivity | | reflexivity].
  destruct (json_dump _ _) as [[] | e]; [| reflexivity].
  now rewrite <- app_assoc.
Qed.

Lemma main_in_range (image : string) (c : pyfloat) (output : option string)
    (log : list event) :
  in_unit_range c = true ->
  main image c output log =
  match detect_image image c output log with
  | (Ok _, log') => (Ok tt, log')
  | (Err e, log') =>
      if is_Exception e
      then (Err (SystemExit 1), (log' ++ [Stderr ("Error: " ++ exn_str e)])%list)
      else (Err e, log')
  end.
Proof.
  unfold in_unit_range, main. intros ->.
  cbv beta iota delta [negb bind ret try_except eprint modify raise].
  destruct (detect_image image c output log) as [[res | e] log']; [reflexivity |].
  destruct (is_Exception e); reflexivity.
Qed.

(** X13. [main] on a missing image file, with a confidence in range:
    the [sys.exit(1)] of [detect_image] is not caught by the
    [except Exception] of [main]; the run ends with exit status 1 after
    the single line "Error: Image file not found: ..." on stderr, and
    the model is never loaded. *)
Theorem main_missing_image_exits
    (path : string) (c : pyfloat) (output : option string) (log : list event) :
  in_unit_range c = true ->
  Path_exists path = false ->
  main path c output log =
  (Err (SystemExit 1),
   (log ++ [Stderr ("Error: Image file not found: " ++ path)])%list).
Proof.
  intros Hrange Hpath.
  now rewrite (main_in_range _ _ _ _ Hrange), detect_image_unfold, Hpath.
Qed.

(** X14. No ordinary exception leaves [main]: it returns, or it ends in
    a [SystemExit]. *)
Theorem main_lets_no_Exception_escape
    (image : string) (c : pyfloat) (output : option string) (log : list event)
    (e : exn) :
  fst (main image c output log) = Err e -> is_Exception e = false.
Proof.
  destruct (in_unit_range c) eqn:Hrange.
  - rewrite (main_in_range _ _ _ _ Hrange).
    destruct (detect_image image c output log) as [[res | e'] log'];
      [discriminate |].
    destruct (is_Exception e') eqn:He'; simpl; intros H; inversion H; subst;
      [reflexivity | exact He'].
  - rewrite (main_rejects_out_of_range _ _ _ _ Hrange). simpl.
    intros H. now inversion H.
Qed.

(** X15. When [detect_image] raises an ordinary exception (an unreadable
    image, a label out of range, a failed dump), [main] writes "Error: "
    followed by the message of the exception to stderr and exits with
    status 1. *)
Theorem main_reports_exception
    (image : string) (c : pyfloat) (output : option string)
    (log log' : list event) (e : exn) :
  in_unit_range c = true ->
  detect_image image c output log = (Err e, log') ->
  is_Exception e = true ->
  main image c output log =
  (Err (SystemExit 1), (log' ++ [Stderr ("Error: " ++ exn_str e)])%list).
Proof.
  intros Hrange Hrun He.
  now rewrite (main_in_range _ _ _ _ Hrange), Hrun, He.
Qed.

(** X16. [main] returns normally exactly when the confidence is within
    [0, 1] and [detect_image] returns. *)
Theorem main_returns_iff
    (image : string) (c : pyfloat) (output : option string) (log : list event) :
  fst (main image c output log) = Ok tt <->
  in_unit_range c = true /\
  exists res, fst (detect_image image c output log) = Ok res.
Proof.
  destruct (in_unit_range c) eqn:Hrange.
  - rewrite (main_in_range _ _ _ _ Hrange).
    destruct (detect_image image c output log) as [[res | e] log']; simpl.
    + split; [intros _; split; [reflexivity | now exists res] | reflexivity].
    + split.
      * destruct (is_Exception e); discriminate.
      * intros (_ & res & Hres). discriminate.
  - rewrite (main_rejects_out_of_range _ _ _ _ Hrange). simpl.
    split; [discriminate | intros [H _]; discriminate].
Qed.

(** X17. A result [detect_image] returns is about an existing file, names
    that file, counts its own detections, and holds only detections
    whose score passes the test [score >= confidence] of [detect] at
    the confidence given. *)
Theorem detect_image_result_is_consistent
    (path : string) (c : pyfloat) (output : option string) (log : list event)
    (res : results) :
  fst (detect_image path c output log) = Ok res ->
  Path_exists path = true /\
  image_path res = path /\
  num_detections res = List.length (detections res) /\
  Forall (fun d => score_ge (score d) c = true) (detections res).
Proof.
  rewrite detect_image_unfold.
  destruct (Path_exists path); [| discriminate].
  destruct (new _ _ _) as [[detector | e] log1]; [| discriminate].
  destruct (detect _ _ _) as [[dets | e] w2] eqn:Hdet; [| discriminate].
  cbv zeta. intros Hres.
  assert (Hdets : Forall (fun d => score_ge (score d) c = true) dets).
  { destruct (detect_inv _ _ _ _ _ Hdet) as (pred & names & _ & _ & Hloop).
    refine (detect_loop_post names c _ (candidates pred) _ [] dets Hloop
              (Forall_nil _)).
    intros box sc lab name Hsc _. exact Hsc. }
  destruct output as [[| a file] |]; simpl in Hres.
  - inversion Hres. now repeat split.
  - destruct (json_dump _ _); simpl in Hres; inversion Hres. now repeat split.
  - inversion Hres. now repeat split.
Qed.

Lemma dumps_of_app (log evs : list event) :
  Forall not_dump evs -> dumps_of (log ++ evs) = dumps_of log.
Proof.
  intros Hevs. unfold dumps_of. rewrite filter_app.
  replace (filter is_dump evs) with (@nil event); [now rewrite app_nil_r |].
  induction Hevs as [| ev evs Hev _ IH]; [reflexivity |].
  simpl. unfold not_dump in Hev. now rewrite Hev.
Qed.

(** X18. [detect_image] writes a file only when asked to, only as its
    last step, and writes what it returns: a run that returns [res] has
    dumped [res] once to the output path if one was given (and was not
    empty), and has dumped nothing otherwise. *)
Theorem detect_image_dumps_what_it_returns
    (path : string) (c : pyfloat) (output : option string) (log : list event)
    (res : results) :
  fst (detect_image path c output log) = Ok res ->
  dumps_of (snd (detect_image path c output log)) =
  (dumps_of log ++ match output with
                   | Some "" | None => []
                   | Some file => [JsonDumped file res]
                   end)%list.
Proof.
  rewrite detect_image_unfold.
  destruct (Path_exists path); [| discriminate].
  destruct (appends_new not_dump "fasterrcnn_resnet50_fpn" None (fun _ => eq_refl)
              (log ++ [Stdout "Loading detection model..."])%list)
    as (evs1 & Hevs1 & Hlog1).
  unfold the_log in Hlog1.
  destruct (new _ _ _) as [[detector | e] log1]; [| discriminate].
  simpl in Hlog1.
  match goal with
  | |- context [detect ?i c ?w] =>
      destruct (emits_appends not_dump (detect i c)
                  (emits_detect not_dump i c eq_refl) w) as (evs2 & Hevs2 & Hlog2)
  end.
  destruct (detect _ _ _) as [[dets | e] w2]; [| discriminate].
  simpl in Hlog2. cbv zeta.
  match goal with
  | |- context [print_detections 1 dets ?l] =>
      destruct (appends_print_detections not_dump dets (fun _ => eq_refl) 1%nat l)
        as (evs3 & Hevs3 & Hlog3);
      set (log3 := snd (print_detections 1 dets l)) in *
  end.
  unfold the_log in Hlog3.
  assert (Hprefix : dumps_of log3 = dumps_of log).
  { rewrite Hlog3, Hlog2, Hlog1.
    rewrite (dumps_of_app _ evs3 Hevs3).
    rewrite (dumps_of_app _ [_]) by (now repeat constructor).
    rewrite (dumps_of_app _ evs2 Hevs2).
    rewrite (dumps_of_app _ [_]) by (now repeat constructor).
    rewrite (dumps_of_app _ evs1 Hevs1).
    now rewrite (dumps_of_app _ [_]) by (now repeat constructor). }
  destruct output as [[| a file] |]; simpl.
  - intros H. inversion H. now rewrite Hprefix, app_nil_r.
  - destruct (json_dump _ _); simpl; intros H; inversion H; subst res.
    unfold dumps_of in *. rewrite filter_app, Hprefix. reflexivity.
  - intros H. inversion H. now rewrite Hprefix, app_nil_r.
Qed.

End MoreProperties.

(** ** The further properties at concrete inputs *)

Lemma new_supported_model_returns_witness :
  fasterrcnn_resnet50_fpn (Env := stub_cpu_only) = Ok tt /\
  Module_to (Env := stub_cpu_only) tt (requested_device (E := stub_cpu_only) None)
    = Ok tt /\
  new (E := stub_cpu_only) "fasterrcnn_resnet50_fpn" None [] =
  (Ok {| device := requested_device (E := stub_cpu_only) None;
         model_name := "fasterrcnn_resnet50_fpn";
         model := Some (Module_eval (Env := stub_cpu_only) tt);
         transform := Some (weights_transforms (Env := stub_cpu_only)) |},
   ([] ++ [Stdout ("Model loaded on device: "
                     ++ requested_device (E := stub_cpu_only) None)])%list).
Proof.
  split; [reflexivity |]. split; [reflexivity |].
  exact (new_supported_model_returns (E := stub_cpu_only) None [] tt tt
           eq_refl eq_refl).
Defined.

Lemma new_propagates_library_failure_witness :
  (fasterrcnn_resnet50_fpn (Env := stub_offline)
     = Err (LibraryError "URLError" "download failed") /\
   new (E := stub_offline) "fasterrcnn_resnet50_fpn" None []
     = (Err (LibraryError "URLError" "download failed"), [])) /\
  (fasterrcnn_resnet50_fpn (Env := stub_cpu_only) = Ok tt /\
   Module_to (Env := stub_cpu_only) tt
     (requested_device (E := stub_cpu_only) (Some "cuda"))
     = Err (LibraryError "RuntimeError" "no such device") /\
   new (E := stub_cpu_only) "fasterrcnn_resnet50_fpn" (Some "cuda") []
     = (Err (LibraryError "RuntimeError" "no such device"), [])).
Proof.
  split.
  - split; [reflexivity |].
    exact (proj1 (new_propagates_library_failure (E := stub_offline) None []
                    (LibraryError "URLError" "download failed")) eq_refl).
  - split; [reflexivity |]. split; [reflexivity |].
    exact (proj2 (new_propagates_library_failure (E := stub_cpu_only)
                    (Some "cuda") []
                    (LibraryError "RuntimeError" "no such device"))
             tt eq_refl eq_refl).
Defined.

Lemma new_instance_is_loaded_witness :
  new (E := stub3) "fasterrcnn_resnet50_fpn" (Some "") []
    = (Ok (self (at_start [three_candidates])),
       [Stdout "Model loaded on device: cpu"]) /\
  "fasterrcnn_resnet50_fpn" = "fasterrcnn_resnet50_fpn" /\
  model_name (self (at_start [three_candidates])) = "fasterrcnn_resnet50_fpn" /\
  (exists m m', fasterrcnn_resnet50_fpn (Env := stub3) = Ok m /\
                Module_to (Env := stub3) m
                  (device (self (at_start [three_candidates]))) = Ok m' /\
                model (self (at_start [three_candidates]))
                  = Some (Module_eval (Env := stub3) m')) /\
  transform (self (at_start [three_candidates]))
    = Some (weights_transforms (Env := stub3)) /\
  (forall s, Some "" = Some s -> s <> "" ->
             device (self (at_start [three_candidates])) = s) /\
  (Some "" = None \/ Some "" = Some "" ->
   device (self (at_start [three_candidates]))
     = if cuda_is_available (Env := stub3) then "cuda" else "cpu").
Proof.
  split; [reflexivity |].
  exact (new_instance_is_loaded (E := stub3) "fasterrcnn_resnet50_fpn" (Some "")
           [] [Stdout "Model loaded on device: cpu"]
           (self (at_start [three_candidates])) eq_refl).
Defined.

Lemma detect_results_pass_threshold_and_resolve_witness :
  detect (E := stub3) (an_image _) f05 (at_start _)
    = (Ok person_and_dog, after_detect _) /\
  exists names,
    fst (get_class_names (E := stub3) (at_start _)) = Ok names /\
    Forall (fun d =>
              score_ge (E := stub3) (score d) f05 = true /\
              - Z.of_nat (List.length names) <= label_id d
                < Z.of_nat (List.length names) /\
              nth_error names (table_index names (label_id d)) = Some (label d))
           person_and_dog.
Proof.
  split; [reflexivity |].
  exact (detect_results_pass_threshold_and_resolve (E := stub3) (an_image _) f05
           (at_start _) (after_detect _) person_and_dog eq_refl).
Defined.

Lemma detect_returns_no_more_than_candidates_witness :
  detect (E := stub3) (an_image _) f05 (at_start _)
    = (Ok person_and_dog, after_detect _) /\
  exists pred,
    run_inference (E := stub3) (an_image _) (at_start _) = (Ok pred, at_start _) /\
    (List.length person_and_dog <= List.length (pred_boxes pred) /\
     List.length person_and_dog <= List.length (pred_scores pred) /\
     List.length person_and_dog <= List.length (pred_labels pred))%nat.
Proof.
  split; [reflexivity |].
  exact (detect_returns_no_more_than_candidates (E := stub3) (an_image _) f05
           (at_start _) (after_detect _) person_and_dog eq_refl).
Defined.

Lemma detect_returns_all_when_all_pass_witness :
  run_inference (E := stub3) (an_image _) (at_start _)
    = (Ok three_candidates, at_start _) /\
  (forall c, In c (candidates three_candidates) ->
             survives (E := stub3) f0 c = true) /\
  detect (E := stub3) (an_image _) f0 (at_start _)
    = (Ok (person_and_dog ++
           [{| bbox := box3; score := Fin (3 # 10); label := "car"; label_id := 3 |}])%list,
       after_detect _) /\
  map raw_of
    (person_and_dog ++
     [{| bbox := box3; score := Fin (3 # 10); label := "car"; label_id := 3 |}])%list
    = candidates three_candidates.
Proof.
  assert (Hall : forall c, In c (candidates three_candidates) ->
                           survives (E := stub3) f0 c = true).
  { intros c [<- | [<- | [<- | []]]]; reflexivity. }
  split; [reflexivity |]. split; [exact Hall |]. split; [reflexivity |].
  exact (detect_returns_all_when_all_pass (E := stub3) (an_image _) f0
           (at_start _) (after_detect _) _ three_candidates eq_refl Hall eq_refl).
Defined.

Lemma detect_NaN_threshold_returns_nothing_witness :
  run_inference (E := stub3) (an_image _) (at_start _)
    = (Ok three_candidates, at_start _) /\
  fst (detect (E := stub3) (an_image _) NaN (at_start _)) = Ok [].
Proof.
  split; [reflexivity |].
  exact (detect_NaN_threshold_returns_nothing (E := stub3) (an_image _)
           (at_start _) three_candidates eq_refl).
Defined.

Lemma detect_propagates_preprocess_error_witness :
  fst (preprocess_image (E := stub3) PyNone (at_start _))
    = Err (ValueError "Unsupported image type: <class 'NoneType'>") /\
  detect (E := stub3) PyNone f05 (at_start _)
    = (Err (ValueError "Unsupported image type: <class 'NoneType'>"), at_start _).
Proof.
  split; [reflexivity |].
  exact (detect_propagates_preprocess_error (E := stub3) PyNone f05 (at_start _)
           (ValueError "Unsupported image type: <class 'NoneType'>") eq_refl).
Defined.

Lemma detect_uses_class_names_of_the_network_witness :
  model (self at_start_pets) = Some (tt : @Module stub_pets) /\
  Module_get_class_names (Env := stub_pets) tt = Some pet_names /\
  snd (detect (E := stub_pets) (PyStr "cat.jpg") f05 at_start_pets)
    = at_start_pets /\
  forall ds,
    fst (detect (E := stub_pets) (PyStr "cat.jpg") f05 at_start_pets) = Ok ds ->
    Forall (fun d => In (label d) pet_names) ds.
Proof.
  split; [reflexivity |]. split; [reflexivity |].
  exact (detect_uses_class_names_of_the_network (E := stub_pets)
           (PyStr "cat.jpg") f05 at_start_pets tt pet_names eq_refl eq_refl).
Defined.

Lemma preprocess_image_forms_agree_witness :
  Image_open (Env := stub3) "cat.jpg" = Ok tt /\
  preprocess_image (E := stub3) (PyStr "cat.jpg") (at_start _)
    = preprocess_image (E := stub3) (an_image _) (at_start _).
Proof.
  split; [reflexivity |].
  exact (proj1 (preprocess_image_forms_agree (E := stub3) (at_start _)
                  (tt : @PIL_Image stub3))
           "cat.jpg" eq_refl).
Defined.

Lemma detect_propagates_decode_error_witness :
  Image_open (Env := stub_offline) "cat.jpg"
    = Err (LibraryError "FileNotFoundError" "No such file") /\
  preprocess_image (E := stub_offline) (PyStr "cat.jpg") at_start_offline
    = (Err (LibraryError "FileNotFoundError" "No such file"), at_start_offline) /\
  detect (E := stub_offline) (PyStr "cat.jpg") f05 at_start_offline
    = (Err (LibraryError "FileNotFoundError" "No such file"), at_start_offline).
Proof.
  split; [reflexivity |].
  exact (detect_propagates_decode_error (E := stub_offline) "cat.jpg" f05
           at_start_offline (LibraryError "FileNotFoundError" "No such file")
           eq_refl).
Defined.

Lemma main_missing_image_exits_witness :
  in_unit_range f05 = true /\
  Path_exists (Env := stub3) "dog.jpg" = false /\
  main (E := stub3) "dog.jpg" f05 None []
    = (Err (SystemExit 1),
       ([] ++ [Stderr ("Error: Image file not found: " ++ "dog.jpg")])%list).
Proof.
  split; [reflexivity |]. split; [reflexivity |].
  exact (main_missing_image_exits (E := stub3) "dog.jpg" f05 None []
           eq_refl eq_refl).
Defined.

Lemma main_lets_no_Exception_escape_witness :
  fst (main (E := stub91) "cat.jpg" f05 None []) = Err (SystemExit 1) /\
  is_Exception (SystemExit 1) = false.
Proof.
  split; [reflexivity |].
  exact (main_lets_no_Exception_escape (E := stub91) "cat.jpg" f05 None []
           (SystemExit 1) eq_refl).
Defined.

Lemma main_reports_exception_witness :
  in_unit_range f05 = true /\
  detect_image (E := stub91) "cat.jpg" f05 None []
    = (Err (IndexError "list index out of range"),
       [Stdout "Loading detection model...";
        Stdout "Model loaded on device: cpu";
        Stdout "Running detection on: cat.jpg";
        CocoClassNamesBuilt]) /\
  is_Exception (IndexError "list index out of range") = true /\
  main (E := stub91) "cat.jpg" f05 None []
    = (Err (SystemExit 1),
       ([Stdout "Loading detection model...";
         Stdout "Model loaded on device: cpu";
         Stdout "Running detection on: cat.jpg";
         CocoClassNamesBuilt]
        ++ [Stderr ("Error: " ++ exn_str (IndexError "list index out of range"))])%list).
Proof.
  split; [reflexivity |]. split; [reflexivity |]. split; [reflexivity |].
  exact (main_reports_exception (E := stub91) "cat.jpg" f05 None [] _
           (IndexError "list index out of range") eq_refl eq_refl eq_refl).
Defined.

Lemma detect_image_result_is_consistent_witness :
  fst (detect_image (E := stub3) "cat.jpg" f05 None [])
    = Ok {| image_path := "cat.jpg"; num_detections := 2;
            detections := person_and_dog |} /\
  Path_exists (Env := stub3) "cat.jpg" = true /\
  "cat.jpg" = "cat.jpg" /\
  2%nat = List.length person_and_dog /\
  Forall (fun d => score_ge (E := stub3) (score d) f05 = true) person_and_dog.
Proof.
  split; [reflexivity |].
  exact (detect_image_result_is_consistent (E := stub3) "cat.jpg" f05 None []
           {| image_path := "cat.jpg"; num_detections := 2;
              detections := person_and_dog |} eq_refl).
Defined.

Lemma detect_image_dumps_what_it_returns_witness :
  fst (detect_image (E := stub3) "cat.jpg" f05 (Some "out.json") [])
    = Ok {| image_path := "cat.jpg"; num_detections := 2;
            detections := person_and_dog |} /\
  dumps_of (snd (detect_image (E := stub3) "cat.jpg" f05 (Some "out.json") []))
    = (dumps_of [] ++
       [JsonDumped "out.json"
          {| image_path := "cat.jpg"; num_detections := 2;
             detections := person_and_dog |}])%list.
Proof.
  split; [reflexivity |].
  exact (detect_image_dumps_what_it_returns (E := stub3) "cat.jpg" f05
           (Some "out.json") []
           {| image_path := "cat.jpg"; num_detections := 2;
              detections := person_and_dog |} eq_refl).
Defined.
